(** * Mitaka: context-menu construction and click dispatch

    A shallow embedding of [src/background.ts] (notification, the three
    dispatch handlers, the context-menu builder and the click listener) and
    of the ONYPHE searcher class, with the properties of the design
    document stated and settled against it.

    The browser is modelled as an explicit [World] threaded through a small
    state-and-exception monad; promise rejection and [throw] are the
    [Throw] outcome, [try { } catch (e) { }] is [try_catch].  The classes
    [Command] and [Selector] live outside the embedded files: their
    methods are section variables, so every theorem about the handlers
    holds for any implementation of them; for the round trip of the menu
    ids the parser is modelled from the design document
    ([parseCommand]). *)

From Stdlib Require Import Ascii.
From stdpp Require Import base strings list gmap.

Local Open Scope string_scope.
Local Open Scope list_scope.

(** ** Data model *)

(** The object caught by [catch (e)], read through [err.message]. *)
Record Error := mkError { message : string }.

(** An analyzer as [background.ts] sees it: the public fields of the
    [Searcher] interface. *)
Record Analyzer := mkAnalyzer {
  endpoint : string;
  name : string;
  supportedTypes : list string
}.

(** [AnalyzerEntry]: one (analyzer, type, query) triple offered to the user. *)
Record AnalyzerEntry := mkEntry {
  analyzer : Analyzer;
  type : string;
  query : string
}.

(** [SearcherStates]: analyzer name to enabled flag; [ApiKeys]: scanner name
    to credential. *)
Abbreviation SearcherStates := (gmap string bool).
Abbreviation ApiKeys := (gmap string string).

Record GeneralSettings := mkGeneralSettings { enableIDN : bool }.

Record UpdateContextMenuMessage := mkMessage {
  request : string;
  selection : string
}.

(** The fields a parsed [Command] exposes to the listener. *)
Module Command.
Record t := mk {
  action : string;
  query : string;
  target : string;
  type : string
}.
End Command.

(** Result of [new Selector(text, enableIDN)]: the two entry lists its
    methods return. *)
Record Selector := mkSelector {
  getSearcherEntries : list AnalyzerEntry;
  getScannerEntries : list AnalyzerEntry
}.

(** ** The ONYPHE searcher *)

Module ONYPHE.
(** [constructor()] *)
Definition new : Analyzer :=
  {| endpoint := "https://www.onyphe.io";
     name := "ONYPHE";
     supportedTypes := ["ip"] |}.

(** [searchByIP(query)]: the template [`${this.endpoint}/ip/${query}`]. *)
Definition searchByIP (this : Analyzer) (query : string) : string :=
  endpoint this +:+ "/ip/" +:+ query.
End ONYPHE.

(** ** The browser *)

(** The options object handed to [browser.contextMenus.create]. *)
Module MenuItem.
Record t := mk {
  contexts : list string;
  id : string;
  title : string
}.
End MenuItem.

(** The options object handed to [browser.notifications.create]. *)
Module Notification.
Record t := mk {
  iconUrl : string;
  message : string;
  title : string;
  type : string
}.
End Notification.

(** [browser.storage.sync], restricted to the two settings the dispatch
    layer depends on; [None] means the key is not stored. *)
Record SyncStorage := mkStorage {
  stored_searcherStates : option SearcherStates;
  stored_apiKeys : option ApiKeys
}.

(** Calls that leave the program. *)
Inductive Call :=
| NotificationsCreate (options : Notification.t)
| TabsCreate (url : string)
| StorageSyncGet (key : string)
| ContextMenusRemoveAll
| ContextMenusCreate (options : MenuItem.t)
| GetApiKeys.

(** What the program can observe or change: the stored settings, the
    context menu, the tabs and notifications opened so far, the console,
    and the log of every call issued, in order. *)
Record World := mkWorld {
  storage : SyncStorage;
  menus : list MenuItem.t;
  tabs : list string;
  notifications : list Notification.t;
  console : list string;
  calls : list Call
}.

Definition log (c : Call) (w : World) : World :=
  mkWorld (storage w) (menus w) (tabs w) (notifications w) (console w)
          (calls w ++ [c]).

Definition open_tab (url : string) (w : World) : World :=
  mkWorld (storage w) (menus w) (tabs w ++ [url]) (notifications w)
          (console w) (calls w).

Definition notify (n : Notification.t) (w : World) : World :=
  mkWorld (storage w) (menus w) (tabs w) (notifications w ++ [n])
          (console w) (calls w).

Definition clear_menus (w : World) : World :=
  mkWorld (storage w) [] (tabs w) (notifications w) (console w) (calls w).

Definition add_menu (item : MenuItem.t) (w : World) : World :=
  mkWorld (storage w) (menus w ++ [item]) (tabs w) (notifications w)
          (console w) (calls w).

Definition print_error (line : string) (w : World) : World :=
  mkWorld (storage w) (menus w) (tabs w) (notifications w)
          (console w ++ [line]) (calls w).

(** ** State and exceptions *)

Inductive Outcome (A : Type) :=
| Ok (a : A)
| Throw (e : Error).
Arguments Ok {A} a.
Arguments Throw {A} e.

Definition M (A : Type) : Type := World → Outcome A * World.

#[global] Instance M_ret : MRet M := λ A a w, (Ok a, w).

#[global] Instance M_bind : MBind M := λ A B k m w,
  match m w with
  | (Ok a, w') => k a w'
  | (Throw e, w') => (Throw e, w')
  end.

(** A synchronous computation that returns or throws without touching the
    browser. *)
Definition lift {A} (o : Outcome A) : M A := λ w, (o, w).

(** [try { body } catch (e) { handler e }] *)
Definition try_catch {A} (body : M A) (handler : Error → M A) : M A := λ w,
  match body w with
  | (Ok a, w') => (Ok a, w')
  | (Throw e, w') => handler e w'
  end.

(** [for (const x of xs) { body x }] *)
Fixpoint for_of {A} (xs : list A) (body : A → M unit) : M unit :=
  match xs with
  | [] => mret tt
  | x :: rest => body x;; for_of rest body
  end.

(** JavaScript's [key in obj] and [!obj[key]] on an object used as a map
    of booleans (a missing key reads as [undefined], which is falsy). *)
Definition js_in {V} (key : string) (obj : gmap string V) : bool :=
  bool_decide (is_Some (obj !! key)).

Definition js_not (v : option bool) : bool :=
  match v with
  | Some b => negb b
  | None => true
  end.

(** ** Sample browsers, worlds and collaborators

    Concrete inputs on which the statements below are run. *)

(** Browsers: one that accepts every call, and three that refuse one kind
    of call. *)
Definition accept_all : Call → World → option Error := λ _ _, None.

Definition storage_unavailable : Call → World → option Error := λ c _,
  match c with
  | GetApiKeys => Some {| message := "storage is unavailable" |}
  | _ => None
  end.

Definition tabs_unavailable : Call → World → option Error := λ c _,
  match c with
  | TabsCreate _ => Some {| message := "No current window" |}
  | _ => None
  end.

Definition notifications_unavailable : Call → World → option Error := λ c _,
  match c with
  | NotificationsCreate _ => Some {| message := "permission denied" |}
  | _ => None
  end.

(** A fresh profile, and one left by an earlier selection. *)
Definition empty_world : World := mkWorld (mkStorage None None) [] [] [] [] [].

Definition stale_world : World :=
  mkWorld (mkStorage (Some {["ONYPHE" := false]}) (Some {["Scanner" := "key"]}))
    [ {| MenuItem.contexts := ["selection"];
         MenuItem.id := "Search example.com as a domain on Finder";
         MenuItem.title := "Search this domain on Finder" |} ]
    [] [] [] [].

(** Analyzers next to ONYPHE: a searcher for plain text and a scanner. *)
Definition Finder : Analyzer :=
  {| endpoint := "https://finder.example"; name := "Finder";
     supportedTypes := ["text"; "ip"] |}.

Definition Scanner : Analyzer :=
  {| endpoint := "https://scanner.example"; name := "Scanner";
     supportedTypes := ["ip"] |}.

(** A selector that knows IPv4 literals of one shape and treats the rest as
    text. *)
Definition sample_Selector (text : string) (enableIDN : bool) : Selector :=
  if decide (text = "8.8.8.8") then
    {| getSearcherEntries :=
         [ mkEntry Finder "text" text; mkEntry ONYPHE.new "ip" text;
           mkEntry Finder "ip" text ];
       getScannerEntries := [ mkEntry Scanner "ip" text ] |}
  else
    {| getSearcherEntries := [ mkEntry Finder "text" text ];
       getScannerEntries := [] |}.

(** Commands and a table-driven stand-in for the parser. *)
Definition onIp : Command.t :=
  {| Command.action := "search"; Command.query := "8.8.8.8";
     Command.target := "ONYPHE"; Command.type := "ip" |}.



Definition unparsed : Command.t :=
  {| Command.action := ""; Command.query := "";
     Command.target := ""; Command.type := "" |}.

Definition sample_Command_new (id : string) : Command.t :=
  if decide (id = "Search 8.8.8.8 as a ip on ONYPHE") then onIp else unparsed.

(** A one-searcher registry behind [Command.search] and
    [Command.searchAll], a scanner that needs its key, and a faulty
    variant. *)
Definition sample_search (command : Command.t) : Outcome string :=
  if decide (Command.target command = "ONYPHE")
  then Ok (ONYPHE.searchByIP ONYPHE.new (Command.query command))
  else Ok "".

Definition sample_searchAll (command : Command.t) (states : SearcherStates)
    : Outcome (list string) :=
  if decide (states !! "ONYPHE" = Some false)
  then Ok []
  else Ok [ONYPHE.searchByIP ONYPHE.new (Command.query command)].

Definition sample_scan (command : Command.t) (apiKeys : ApiKeys) (w : World)
    : Outcome string :=
  match apiKeys !! "Scanner" with
  | Some key =>
      if decide (Command.target command = "Scanner")
      then Ok ("https://scanner.example/result/" +:+ Command.query command)
      else Ok ""
  | None => Throw {| message := "Please set your API key" |}
  end.

Definition failing_search (command : Command.t) : Outcome string :=
  Throw {| message := "unsupported type" |}.

(** A browser whose sync storage cannot be read, and general settings
    that are always there. *)
Definition sync_unavailable : Call → World → option Error := λ c _,
  match c with
  | StorageSyncGet _ => Some {| message := "storage is unavailable" |}
  | _ => None
  end.

Definition sample_getGeneralSettings : M GeneralSettings :=
  λ w, (Ok {| enableIDN := false |}, w).

(** A [Command.searchAll] with three searchers, and a browser that cannot
    open the page of the second. *)
Definition three_searchAll (command : Command.t) (states : SearcherStates)
    : Outcome (list string) :=
  Ok [ "https://a.example/" +:+ Command.query command;
       "https://b.example/" +:+ Command.query command;
       "https://c.example/" +:+ Command.query command ].

Definition refuses_b : Call → World → option Error := λ c _,
  match c with
  | TabsCreate url =>
      if decide (url = "https://b.example/8.8.8.8")
      then Some {| message := "Illegal URL" |}
      else None
  | _ => None
  end.

(** A browser that refuses the "on all" item of one selection, as it does
    for an id it already holds. *)
Definition refuses_all_item (item : MenuItem.t) : option Error :=
  if decide (MenuItem.id item = "Search 8.8.8.8 as a ip on all")
  then Some {| message := "Cannot create item with duplicate id" |}
  else None.

Definition menus_refusing_all : Call → World → option Error := λ c _,
  match c with
  | ContextMenusCreate item => refuses_all_item item
  | _ => None
  end.

(** ** background.ts *)

(** The two templates of [createContextMenus]:
    [`Search ${query} as a ${type} on ${name}`] and
    [`Scan ${query} as a ${type} on ${name}`], with their titles. *)
Definition searchId (query type name : string) : string :=
  "Search " +:+ query +:+ " as a " +:+ type +:+ " on " +:+ name.

Definition searchTitle (type name : string) : string :=
  "Search this " +:+ type +:+ " on " +:+ name.

Definition scanId (query type name : string) : string :=
  "Scan " +:+ query +:+ " as a " +:+ type +:+ " on " +:+ name.

Definition scanTitle (type name : string) : string :=
  "Scan this " +:+ type +:+ " on " +:+ name.

(** The [options] object built for a searcher entry, for the entry shared
    by all searchers, and for a scanner entry. *)
Definition searchItem (entry : AnalyzerEntry) : MenuItem.t :=
  {| MenuItem.contexts := ["selection"];
     MenuItem.id := searchId (query entry) (type entry) (name (analyzer entry));
     MenuItem.title := searchTitle (type entry) (name (analyzer entry)) |}.

Definition allItem (nonTextEntry : AnalyzerEntry) : MenuItem.t :=
  {| MenuItem.contexts := ["selection"];
     MenuItem.id := searchId (query nonTextEntry) (type nonTextEntry) "all";
     MenuItem.title := searchTitle (type nonTextEntry) "all" |}.

Definition scanItem (entry : AnalyzerEntry) : MenuItem.t :=
  {| MenuItem.contexts := ["selection"];
     MenuItem.id := scanId (query entry) (type entry) (name (analyzer entry));
     MenuItem.title := scanTitle (type entry) (name (analyzer entry)) |}.







Section Background.

(** The browser decides whether a call fails: [rejects c w = Some e] when
    call [c], issued in world [w], rejects its promise with [e] (for
    [contextMenus.create]: reports [e] as [runtime.lastError]). *)
Variable rejects : Call → World → option Error.

(** The collaborators of [./lib/command] and [./lib/selector]:
    [new Command(id)], [command.search()], [command.searchAll(states)],
    [command.scan(apiKeys)] (which goes to the network, so its outcome may
    depend on the moment it is issued) and [new Selector(text, enableIDN)]. *)
Variable Command_new : string → Command.t.
Variable Command_search : Command.t → Outcome string.
Variable Command_searchAll : Command.t → SearcherStates → Outcome (list string).
Variable Command_scan : Command.t → ApiKeys → World → Outcome string.
Variable Selector_new : string → bool → Selector.

(** A promise-returning browser call: logged, then rejected or performed. *)
Definition perform {A} (c : Call) (result : World → A)
    (effect : World → World) : M A := λ w,
  match rejects c w with
  | Some e => (Throw e, log c w)
  | None => (Ok (result w), effect (log c w))
  end.

Definition browser_notifications_create (options : Notification.t) : M unit :=
  perform (NotificationsCreate options) (λ _, tt) (notify options).

Definition browser_tabs_create (url : string) : M unit :=
  perform (TabsCreate url) (λ _, tt) (open_tab url).

(** [browser.storage.sync.get(key)], for the one key the file asks for: an
    object holding ["searcherStates"] when it is stored. *)
Definition browser_storage_sync_get (key : string)
    : M (gmap string SearcherStates) :=
  perform (StorageSyncGet key)
    (λ w, if decide (key = "searcherStates")
          then match stored_searcherStates (storage w) with
               | Some states => {[key := states]}
               | None => ∅
               end
          else ∅)
    id.

Definition browser_contextMenus_removeAll : M unit :=
  perform ContextMenusRemoveAll (λ _, tt) clear_menus.

(** [browser.contextMenus.create(options, callback)]: synchronous; the
    outcome reaches the callback through [browser.runtime.lastError]. *)
Definition browser_contextMenus_create (options : MenuItem.t)
    (callback : option Error → M unit) : M unit := λ w,
  match rejects (ContextMenusCreate options) w with
  | Some e => callback (Some e) (log (ContextMenusCreate options) w)
  | None => callback None (add_menu options (log (ContextMenusCreate options) w))
  end.

Definition console_error (line : string) : M unit :=
  λ w, (Ok tt, print_error line w).

(** Modelled from the spec: [getApiKeys] of [./utility] is not among the
    embedded files; the design document has [ApiKeys] "sourced from
    persisted configuration", so it reads the stored keys (none stored:
    the empty mapping). *)
Definition getApiKeys : M ApiKeys :=
  perform GetApiKeys (λ w, default ∅ (stored_apiKeys (storage w))) id.

Definition showNotification (message : string) : M unit :=
  browser_notifications_create
    {| Notification.iconUrl := "./icons/48.png";
       Notification.message := message;
       Notification.title := "Mitaka";
       Notification.type := "basic" |}.

(** The [try] block of [search]. *)
Definition search_try (command : Command.t) : M unit :=
  url ← lift (Command_search command);
  if decide (url ≠ "") then browser_tabs_create url else mret tt.

Definition search (command : Command.t) : M unit :=
  try_catch (search_try command) (λ err, showNotification (message err)).

(** The [try] block of [searchAll]. *)
Definition searchAll_try (command : Command.t) : M unit :=
  config ← browser_storage_sync_get "searcherStates";
  let states : SearcherStates :=
    if js_in "searcherStates" config
    then default ∅ (config !! "searcherStates")
    else ∅ in
  urls ← lift (Command_searchAll command states);
  for_of urls browser_tabs_create.

Definition searchAll (command : Command.t) : M unit :=
  try_catch (searchAll_try command) (λ err, showNotification (message err)).

(** The [try] block of [scan]; [getApiKeys] is awaited before it. *)
Definition scan_try (command : Command.t) (apiKeys : ApiKeys) : M unit :=
  url ← (λ w, (Command_scan command apiKeys w, w));
  if decide (url ≠ "") then browser_tabs_create url else mret tt.

Definition scan (command : Command.t) : M unit :=
  apiKeys ← getApiKeys;
  try_catch (scan_try command apiKeys) (λ err, showNotification (message err)).

Definition createContextMenuErrorHandler (lastError : option Error) : M unit :=
  match lastError with
  | Some e => console_error (message e)
  | None => mret tt
  end.

(** The first loop of [createContextMenus], threading the local variable
    [nonTextEntry]; the first branch is the [continue]. *)
Fixpoint searcherLoop (searcherStates : SearcherStates)
    (searcherEntries : list AnalyzerEntry)
    (nonTextEntry : option AnalyzerEntry) : M (option AnalyzerEntry) :=
  match searcherEntries with
  | [] => mret nonTextEntry
  | entry :: rest =>
      let name := name (analyzer entry) in
      if js_in name searcherStates && js_not (searcherStates !! name)
      then searcherLoop searcherStates rest nonTextEntry
      else
        let nonTextEntry :=
          if bool_decide (type entry ≠ "text")
             && bool_decide (nonTextEntry = None)
          then Some entry else nonTextEntry in
        browser_contextMenus_create (searchItem entry)
          createContextMenuErrorHandler;;
        searcherLoop searcherStates rest nonTextEntry
  end.

Definition createContextMenus (message : UpdateContextMenuMessage)
    (searcherStates : SearcherStates) (generalSettings : GeneralSettings)
    : M unit :=
  browser_contextMenus_removeAll;;
  let text := selection message in
  let selector := Selector_new text (enableIDN generalSettings) in
  let searcherEntries := getSearcherEntries selector in
  nonTextEntry ← searcherLoop searcherStates searcherEntries None;
  match nonTextEntry with
  | Some nonTextEntry =>
      browser_contextMenus_create (allItem nonTextEntry)
        createContextMenuErrorHandler
  | None => mret tt
  end;;
  let scannerEntries := getScannerEntries selector in
  for_of scannerEntries (λ entry,
    browser_contextMenus_create (scanItem entry)
      createContextMenuErrorHandler).

(** The [browser.contextMenus.onClicked] listener; the [switch] has no
    [default]. *)
Definition onClicked (menuItemId : string) : M unit :=
  let command := Command_new menuItemId in
  if decide (Command.action command = "search") then
    if decide (Command.target command = "all")
    then searchAll command
    else search command
  else if decide (Command.action command = "scan") then
    scan command
  else mret tt.

(** [getGeneralSettings] of [./utility], awaited by the message listener. *)
Variable getGeneralSettings : M GeneralSettings.

(** The [browser.runtime.onMessage] listener. *)
Definition onMessage (message : UpdateContextMenuMessage) : M unit :=
  if decide (request message = "updateContextMenu") then
    config ← browser_storage_sync_get "searcherStates";
    generalSettings ← getGeneralSettings;
    if js_in "searcherStates" config then
      let searcherStates : SearcherStates :=
        default ∅ (config !! "searcherStates") in
      createContextMenus message searcherStates generalSettings
    else createContextMenus message ∅ generalSettings
  else mret tt.

(** ** Vocabulary of the statements *)

(** The notification [showNotification] builds for an error. *)
Definition notificationOf (e : Error) : Notification.t :=
  {| Notification.iconUrl := "./icons/48.png";
     Notification.message := message e;
     Notification.title := "Mitaka";
     Notification.type := "basic" |}.

(** The states [searchAll] and the keys [scan] work with in world [w]. *)
Definition currentStates (w : World) : SearcherStates :=
  default ∅ (stored_searcherStates (storage w)).

Definition currentApiKeys (w : World) : ApiKeys :=
  default ∅ (stored_apiKeys (storage w)).

(** [caught e w1 r]: the error [e], thrown in world [w1], was turned into
    a notification carrying its message; [r] is what the handler made of
    it. *)
Definition caught (e : Error) (w1 : World) (r : Outcome unit * World) : Prop :=
  calls r.2 = calls w1 ++ [NotificationsCreate (notificationOf e)]
  ∧ (rejects (NotificationsCreate (notificationOf e)) w1 = None →
     r = (Ok tt, notify (notificationOf e)
                   (log (NotificationsCreate (notificationOf e)) w1))).

(** Calls that open a tab or show a notification. *)
Definition is_output (c : Call) : Prop :=
  match c with
  | TabsCreate _ | NotificationsCreate _ => True
  | _ => False
  end.

(** [outputs_only w w']: from [w] to [w'] the stored settings did not
    change and the calls issued were all tab or notification calls. *)
Definition outputs_only (w w' : World) : Prop :=
  storage w' = storage w
  ∧ ∃ issued, calls w' = calls w ++ issued ∧ Forall is_output issued.

(** A computation is quiet when every run of it is [outputs_only]. *)
Definition quiet {A} (m : M A) : Prop := ∀ w, outputs_only w (m w).2.

(** The searcher entries that [searcherStates] does not map to [false], the
    first entry of a list whose type is not ["text"], and the menu these
    describe: one item per enabled searcher entry, the item shared by all
    searchers when there is an enabled entry that is not text, one item
    per scanner entry. *)
Definition enabledEntries (searcherStates : SearcherStates)
    (entries : list AnalyzerEntry) : list AnalyzerEntry :=
  filter (λ entry, searcherStates !! name (analyzer entry) ≠ Some false) entries.

Definition firstNonText (entries : list AnalyzerEntry) : option AnalyzerEntry :=
  head (filter (λ entry, type entry ≠ "text") entries).

Definition expectedMenu (searcherStates : SearcherStates)
    (selector : Selector) : list MenuItem.t :=
  let enabled := enabledEntries searcherStates (getSearcherEntries selector) in
  (searchItem <$> enabled)
  ++ (allItem <$> option_list (firstNonText enabled))
  ++ (scanItem <$> getScannerEntries selector).

(** The browser reports no error for any menu creation. *)
Definition accepts_menus : Prop :=
  ∀ item w, rejects (ContextMenusCreate item) w = None.

(** [created items w w']: from [w] to [w'] the program asked for [items],
    in order, and for nothing else; the menu grew by those the browser
    took, and tabs, notifications and settings stayed as they were. *)
Definition created (items : list MenuItem.t) (w w' : World) : Prop :=
  calls w' = calls w ++ (ContextMenusCreate <$> items)
  ∧ (∃ taken, menus w' = menus w ++ taken
       ∧ taken `sublist_of` items
       ∧ (accepts_menus → taken = items))
  ∧ storage w' = storage w
  ∧ tabs w' = tabs w
  ∧ notifications w' = notifications w.

(** [grows w w']: from [w] to [w'] the menu and the console did not change,
    and tabs and notifications were only added. *)
Definition grows (w w' : World) : Prop :=
  menus w' = menus w
  ∧ console w' = console w
  ∧ tabs w `prefix_of` tabs w'
  ∧ notifications w `prefix_of` notifications w'.

Definition steady {A} (m : M A) : Prop := ∀ w, grows w (m w).2.

(** [sorted_out refusal items w w']: from [w] to [w'] the items that
    [refusal] lets through went into the menu, and the messages of the
    errors it gives for the others went to the console. *)
Definition sorted_out (refusal : MenuItem.t → option Error)
    (items : list MenuItem.t) (w w' : World) : Prop :=
  menus w' = menus w ++ filter (λ item, refusal item = None) items
  ∧ console w'
    = console w ++ omap (λ item, message <$> refusal item) items.

(** ** Properties of the dispatch handlers *)

Lemma perform_accepted {A} (c : Call) (result : World → A)
    (effect : World → World) (w : World) :
  rejects c w = None →
  perform c result effect w = (Ok (result w), effect (log c w)).
Proof. intros H. unfold perform. by rewrite H. Qed.

Lemma perform_rejected {A} (c : Call) (result : World → A)
    (effect : World → World) (w : World) (e : Error) :
  rejects c w = Some e →
  perform c result effect w = (Throw e, log c w).
Proof. intros H. unfold perform. by rewrite H. Qed.

Lemma tabs_create_accepted (url : string) (w : World) :
  rejects (TabsCreate url) w = None →
  browser_tabs_create url w = (Ok tt, open_tab url (log (TabsCreate url) w)).
Proof. apply perform_accepted. Qed.

Lemma tabs_create_rejected (url : string) (w : World) (e : Error) :
  rejects (TabsCreate url) w = Some e →
  browser_tabs_create url w = (Throw e, log (TabsCreate url) w).
Proof. apply perform_rejected. Qed.

Lemma getApiKeys_accepted (w : World) :
  rejects GetApiKeys w = None →
  getApiKeys w = (Ok (currentApiKeys w), log GetApiKeys w).
Proof. intros H. unfold getApiKeys. by apply perform_accepted. Qed.

Lemma getApiKeys_rejected (w : World) (e : Error) :
  rejects GetApiKeys w = Some e →
  getApiKeys w = (Throw e, log GetApiKeys w).
Proof. intros H. unfold getApiKeys. by apply perform_rejected. Qed.

(** Once the keys are read, [scan] is its [try] block under the handler. *)
Lemma scan_after_keys (command : Command.t) (w : World) :
  rejects GetApiKeys w = None →
  scan command w
  = try_catch (scan_try command (currentApiKeys w))
      (λ err, showNotification (message err)) (log GetApiKeys w).
Proof.
  intros H. unfold scan, mbind, M_bind. by rewrite getApiKeys_accepted.
Qed.

(** Once the settings are read, the [try] block of [searchAll] goes on
    with the stored states, or with none when the key is not stored. *)
Lemma searchAll_try_after_get (command : Command.t) (w : World) :
  rejects (StorageSyncGet "searcherStates") w = None →
  searchAll_try command w
  = (urls ← lift (Command_searchAll command (currentStates w));
     for_of urls browser_tabs_create) (log (StorageSyncGet "searcherStates") w).
Proof.
  intros Hacc. unfold searchAll_try, browser_storage_sync_get.
  unfold mbind at 1. unfold M_bind at 1.
  rewrite perform_accepted by done. simpl.
  unfold currentStates, js_in.
  destruct (stored_searcherStates (storage w)) as [states|]; simpl.
  - by rewrite lookup_singleton_eq.
  - by rewrite lookup_empty.
Qed.

(** A run of [tabs.create] over a list of URLs that the browser accepts
    opens them all, in order, and nothing else changes but the log. *)
Lemma for_of_tabs_accepted (urls : list string) :
  (∀ url w', rejects (TabsCreate url) w' = None) →
  ∀ w, ∃ w', for_of urls browser_tabs_create w = (Ok tt, w')
    ∧ tabs w' = tabs w ++ urls
    ∧ calls w' = calls w ++ (TabsCreate <$> urls)
    ∧ notifications w' = notifications w
    ∧ menus w' = menus w
    ∧ storage w' = storage w.
Proof.
  intros Hacc. induction urls as [|url urls IH]; intros w.
  - exists w. simpl. rewrite !app_nil_r. done.
  - simpl. unfold mbind, M_bind.
    rewrite tabs_create_accepted by apply Hacc.
    destruct (IH (open_tab url (log (TabsCreate url) w)))
      as (w' & Hrun & Htabs & Hcalls & Hn & Hm & Hs).
    exists w'. rewrite Hrun, Htabs, Hcalls, Hn, Hm, Hs. simpl.
    rewrite <- !app_assoc. done.
Qed.

(** *** The empty URL (C3) *)



(** *** Unknown actions (C10) *)

(** C10: a click whose id parses to an action other than ["search"] and
    ["scan"] does nothing: the handler returns and the world (tabs,
    notifications, menus, call log) is the one it started from. *)
Theorem onClicked_unknown_action_ignored (menuItemId : string) (w : World) :
  Command.action (Command_new menuItemId) ≠ "search" →
  Command.action (Command_new menuItemId) ≠ "scan" →
  onClicked menuItemId w = (Ok tt, w).
Proof.
  intros Hsearch Hscan. unfold onClicked.
  by rewrite !decide_False by done.
Qed.

(** *** Exceptions at the dispatch boundary (C4) *)

Lemma showNotification_caught (e : Error) (w1 : World) :
  caught e w1 (showNotification (message e) w1).
Proof.
  unfold caught, showNotification, browser_notifications_create.
  fold (notificationOf e). split.
  - unfold perform. by destruct (rejects _ w1).
  - intros Hacc. by rewrite perform_accepted.
Qed.

(** C4, amended: an exception raised inside the [try] block of [search],
    [searchAll] or [scan] is caught by that handler and turned into one
    notification whose message is the error's message; the handler then
    returns normally provided the browser accepts the notification.
    ([scan] awaits [getApiKeys] before its [try] block; the statement
    starts once the keys are read.) *)
Theorem dispatch_catches_try_block (command : Command.t) (w w1 : World)
    (e : Error) :
  (search_try command w = (Throw e, w1) → caught e w1 (search command w))
  ∧ (searchAll_try command w = (Throw e, w1) →
     caught e w1 (searchAll command w))
  ∧ (rejects GetApiKeys w = None →
     scan_try command (currentApiKeys w) (log GetApiKeys w) = (Throw e, w1) →
     caught e w1 (scan command w)).
Proof.
  split; [|split].
  - intros Hthrow. unfold search, try_catch. rewrite Hthrow.
    apply showNotification_caught.
  - intros Hthrow. unfold searchAll, try_catch. rewrite Hthrow.
    apply showNotification_caught.
  - intros Hkeys Hthrow. rewrite scan_after_keys by done.
    unfold try_catch. rewrite Hthrow. apply showNotification_caught.
Qed.

(** *** Settings are read on every invocation (C6) *)

Lemma outputs_only_refl (w : World) : outputs_only w w.
Proof. split; [done|]. exists []. by rewrite app_nil_r. Qed.

Lemma outputs_only_trans (w1 w2 w3 : World) :
  outputs_only w1 w2 → outputs_only w2 w3 → outputs_only w1 w3.
Proof.
  intros [Hs1 (l1 & Hc1 & Hf1)] [Hs2 (l2 & Hc2 & Hf2)]. split; [congruence|].
  exists (l1 ++ l2). rewrite Hc2, Hc1, app_assoc. split; [done|].
  by apply Forall_app.
Qed.

Lemma quiet_ret {A} (a : A) : quiet (mret a).
Proof. intros w. apply outputs_only_refl. Qed.

Lemma quiet_lift {A} (o : Outcome A) : quiet (lift o).
Proof. intros w. apply outputs_only_refl. Qed.

Lemma quiet_bind {A B} (m : M A) (k : A → M B) :
  quiet m → (∀ a, quiet (k a)) → quiet (m ≫= k).
Proof.
  intros Hm Hk w. unfold mbind, M_bind. specialize (Hm w).
  destruct (m w) as [[a|e] w']; simpl in *; [|done].
  eapply outputs_only_trans; [done|apply Hk].
Qed.

Lemma quiet_try_catch {A} (body : M A) (handler : Error → M A) :
  quiet body → (∀ e, quiet (handler e)) → quiet (try_catch body handler).
Proof.
  intros Hm Hk w. unfold try_catch. specialize (Hm w).
  destruct (body w) as [[a|e] w']; simpl in *; [done|].
  eapply outputs_only_trans; [done|apply Hk].
Qed.

Lemma quiet_perform {A} (c : Call) (result : World → A)
    (effect : World → World) :
  is_output c →
  (∀ w, storage (effect w) = storage w ∧ calls (effect w) = calls w) →
  quiet (perform c result effect).
Proof.
  intros Hc Heff w. unfold perform.
  destruct (rejects c w); simpl.
  - split; [done|]. exists [c]. split; [done|]. by constructor.
  - destruct (Heff (log c w)) as [Hs Hcalls]. split; [by rewrite Hs|].
    exists [c]. rewrite Hcalls. split; [done|]. by constructor.
Qed.

Lemma quiet_tabs_create (url : string) : quiet (browser_tabs_create url).
Proof. by apply quiet_perform. Qed.

Lemma quiet_showNotification (message : string) :
  quiet (showNotification message).
Proof. by apply quiet_perform. Qed.

Lemma quiet_for_of {A} (xs : list A) (body : A → M unit) :
  (∀ x, quiet (body x)) → quiet (for_of xs body).
Proof.
  intros Hbody. induction xs as [|x xs IH]; simpl.
  - apply quiet_ret.
  - apply quiet_bind; [apply Hbody|done].
Qed.

Lemma quiet_search (command : Command.t) : quiet (search command).
Proof.
  apply quiet_try_catch; [|intros; apply quiet_showNotification].
  apply quiet_bind; [apply quiet_lift|]. intros url.
  case_decide; [apply quiet_tabs_create|apply quiet_ret].
Qed.

Lemma quiet_scan_try (command : Command.t) (apiKeys : ApiKeys) :
  quiet (scan_try command apiKeys).
Proof.
  apply quiet_bind; [intros w; apply outputs_only_refl|]. intros url.
  case_decide; [apply quiet_tabs_create|apply quiet_ret].
Qed.

(** C6: every invocation of [searchAll] starts by reading
    ["searcherStates"] from the sync storage and hands [Command.searchAll]
    the states stored at that moment; every invocation of [scan] starts
    by calling [getApiKeys] and hands [Command.scan] the keys stored at
    that moment; after that one read the handlers only open tabs and show
    notifications, and none of [search], [searchAll], [scan] changes the
    stored settings. *)
Theorem dispatch_reads_settings_fresh (command : Command.t) (w : World) :
  outputs_only (log (StorageSyncGet "searcherStates") w) (searchAll command w).2
  ∧ (rejects (StorageSyncGet "searcherStates") w = None →
     searchAll command w
     = try_catch
         (urls ← lift (Command_searchAll command (currentStates w));
          for_of urls browser_tabs_create)
         (λ err, showNotification (message err))
         (log (StorageSyncGet "searcherStates") w))
  ∧ outputs_only (log GetApiKeys w) (scan command w).2
  ∧ (rejects GetApiKeys w = None →
     scan command w
     = try_catch (scan_try command (currentApiKeys w))
         (λ err, showNotification (message err)) (log GetApiKeys w))
  ∧ outputs_only w (search command w).2
  ∧ storage (searchAll command w).2 = storage w
  ∧ storage (scan command w).2 = storage w.
Proof.
  assert (Hall : outputs_only (log (StorageSyncGet "searcherStates") w)
                   (searchAll command w).2).
  { unfold searchAll.
    destruct (rejects (StorageSyncGet "searcherStates") w) as [e|] eqn:Hget.
    - unfold try_catch, searchAll_try, browser_storage_sync_get.
      unfold mbind at 1. unfold M_bind at 1.
      rewrite (perform_rejected _ _ _ _ e) by done.
      apply quiet_showNotification.
    - unfold try_catch at 1. rewrite searchAll_try_after_get by done.
      apply (quiet_try_catch _ (λ err, showNotification (message err)));
        [|intros; apply quiet_showNotification].
      apply quiet_bind; [apply quiet_lift|]. intros urls.
      apply quiet_for_of, quiet_tabs_create. }
  assert (Hscan : outputs_only (log GetApiKeys w) (scan command w).2).
  { destruct (rejects GetApiKeys w) as [e|] eqn:Hkeys.
    - unfold scan, mbind, M_bind.
      rewrite (getApiKeys_rejected _ e) by done. apply outputs_only_refl.
    - rewrite scan_after_keys by done.
      apply quiet_try_catch; [apply quiet_scan_try|].
      intros; apply quiet_showNotification. }
  split_and!.
  - done.
  - intros Hget. unfold searchAll, try_catch.
    by rewrite searchAll_try_after_get.
  - done.
  - by apply scan_after_keys.
  - apply quiet_search.
  - by destruct Hall as [-> _].
  - by destruct Hscan as [-> _].
Qed.

(** ** Properties of the menu builder *)

Lemma created_nil (w : World) : created [] w w.
Proof.
  split_and!; try done.
  - by rewrite app_nil_r.
  - exists []. by rewrite app_nil_r.
Qed.

Lemma created_app (l1 l2 : list MenuItem.t) (w1 w2 w3 : World) :
  created l1 w1 w2 → created l2 w2 w3 → created (l1 ++ l2) w1 w3.
Proof.
  intros (Hc1 & (t1 & Hm1 & Hsub1 & Hall1) & Hs1 & Ht1 & Hn1)
         (Hc2 & (t2 & Hm2 & Hsub2 & Hall2) & Hs2 & Ht2 & Hn2).
  split_and!; try congruence.
  - by rewrite Hc2, Hc1, fmap_app, app_assoc.
  - exists (t1 ++ t2). split_and!.
    + by rewrite Hm2, Hm1, app_assoc.
    + by apply sublist_app.
    + intros Hacc. by rewrite Hall1, Hall2.
Qed.

Lemma contextMenus_create_run (item : MenuItem.t) (w : World) :
  ∃ w', browser_contextMenus_create item createContextMenuErrorHandler w
        = (Ok tt, w')
    ∧ created [item] w w'.
Proof.
  unfold browser_contextMenus_create.
  destruct (rejects (ContextMenusCreate item) w) as [e|] eqn:Hrej; simpl.
  - eexists. split; [done|]. split_and!; try done.
    exists []. simpl. rewrite app_nil_r. split_and!; [done| |].
    + apply sublist_nil_l.
    + intros Hacc. by rewrite Hacc in Hrej.
  - eexists. split; [done|]. split_and!; try done.
    by exists [item].
Qed.

Lemma skip_iff_mapped_to_false (searcherStates : SearcherStates)
    (name : string) :
  js_in name searcherStates && js_not (searcherStates !! name) = true
  ↔ searcherStates !! name = Some false.
Proof.
  unfold js_in. rewrite andb_true_iff, bool_decide_eq_true.
  destruct (searcherStates !! name) as [[]|]; simpl.
  - split; [by intros [_ ?]|done].
  - split; [done|]. eauto.
  - split; [|done]. by intros [[? ?] _].
Qed.

(** The first loop asks for the items of the enabled entries and leaves in
    [nonTextEntry] the first of them that is not text. *)
Lemma searcherLoop_run (searcherStates : SearcherStates)
    (entries : list AnalyzerEntry) :
  ∀ (nonTextEntry : option AnalyzerEntry) (w : World),
  ∃ w', searcherLoop searcherStates entries nonTextEntry w
        = (Ok (match nonTextEntry with
               | Some found => Some found
               | None => firstNonText (enabledEntries searcherStates entries)
               end), w')
    ∧ created (searchItem <$> enabledEntries searcherStates entries) w w'.
Proof.
  unfold enabledEntries, firstNonText.
  induction entries as [|entry rest IH]; intros nonTextEntry w.
  - exists w. split; [by destruct nonTextEntry|apply created_nil].
  - simpl searcherLoop.
    destruct (js_in (name (analyzer entry)) searcherStates
              && js_not (searcherStates !! name (analyzer entry)))
      eqn:Hskip.
    + apply skip_iff_mapped_to_false in Hskip.
      rewrite filter_cons_False by naive_solver. apply IH.
    + assert (searcherStates !! name (analyzer entry) ≠ Some false) as Hen.
      { intros Hfalse. apply skip_iff_mapped_to_false in Hfalse. congruence. }
      rewrite filter_cons_True by done.
      unfold mbind, M_bind.
      destruct (contextMenus_create_run (searchItem entry) w)
        as (w1 & -> & Hone).
      destruct (IH (if bool_decide (type entry ≠ "text")
                       && bool_decide (nonTextEntry = None)
                    then Some entry else nonTextEntry) w1)
        as (w' & -> & Hrest).
      exists w'. split.
      * f_equal. destruct nonTextEntry as [found|]; simpl.
        -- by rewrite andb_false_r.
        -- rewrite andb_true_r. case_bool_decide.
           ++ by rewrite filter_cons_True.
           ++ by rewrite filter_cons_False by naive_solver.
      * rewrite fmap_cons. by apply (created_app [_] _ w w1 w').
Qed.

Lemma scannerLoop_run (entries : list AnalyzerEntry) :
  ∀ w, ∃ w',
    for_of entries (λ entry,
      browser_contextMenus_create (scanItem entry)
        createContextMenuErrorHandler) w = (Ok tt, w')
    ∧ created (scanItem <$> entries) w w'.
Proof.
  induction entries as [|entry rest IH]; intros w.
  - exists w. split; [done|apply created_nil].
  - simpl. unfold mbind, M_bind.
    destruct (contextMenus_create_run (scanItem entry) w) as (w1 & -> & Hone).
    destruct (IH w1) as (w' & -> & Hrest).
    exists w'. split; [done|]. by apply (created_app [_] _ w w1 w').
Qed.

(** What one run of [createContextMenus] does. *)
Lemma createContextMenus_run (message : UpdateContextMenuMessage)
    (searcherStates : SearcherStates) (generalSettings : GeneralSettings)
    (w : World) :
  rejects ContextMenusRemoveAll w = None →
  ∃ w', createContextMenus message searcherStates generalSettings w
        = (Ok tt, w')
    ∧ created
        (expectedMenu searcherStates
           (Selector_new (selection message) (enableIDN generalSettings)))
        (clear_menus (log ContextMenusRemoveAll w)) w'.
Proof.
  intros Hremove. unfold createContextMenus, expectedMenu.
  set (selector := Selector_new _ _).
  unfold mbind at 1. unfold M_bind at 1.
  unfold browser_contextMenus_removeAll. rewrite perform_accepted by done.
  set (w0 := clear_menus _). simpl.
  unfold mbind at 1. unfold M_bind at 1.
  destruct (searcherLoop_run searcherStates (getSearcherEntries selector)
              None w0) as (w1 & -> & Hsearch).
  unfold mbind at 1. unfold M_bind at 1.
  destruct (firstNonText _) as [found|]; simpl.
  - destruct (contextMenus_create_run (allItem found) w1) as (w2 & -> & Hall).
    destruct (scannerLoop_run (getScannerEntries selector) w2)
      as (w3 & -> & Hscan).
    exists w3. split; [done|].
    apply (created_app _ _ w0 w1 w3); [done|].
    by apply (created_app [_] _ w1 w2 w3).
  - destruct (scannerLoop_run (getScannerEntries selector) w1)
      as (w3 & -> & Hscan).
    exists w3. split; [done|].
    by apply (created_app _ _ w0 w1 w3).
Qed.

Lemma createContextMenus_effect (message : UpdateContextMenuMessage)
    (searcherStates : SearcherStates) (generalSettings : GeneralSettings)
    (w : World) :
  rejects ContextMenusRemoveAll w = None →
  let expected :=
    expectedMenu searcherStates
      (Selector_new (selection message) (enableIDN generalSettings)) in
  ∃ w', createContextMenus message searcherStates generalSettings w
        = (Ok tt, w')
    ∧ calls w'
      = calls w ++ ContextMenusRemoveAll :: (ContextMenusCreate <$> expected)
    ∧ menus w' `sublist_of` expected
    ∧ (accepts_menus → menus w' = expected).
Proof.
  intros Hremove expected.
  destruct (createContextMenus_run message searcherStates generalSettings w
              Hremove)
    as (w' & Hrun & Hcalls & (taken & Hmenus & Hsub & Hall) & _).
  exists w'. simpl in Hcalls, Hmenus. subst expected.
  rewrite Hmenus, Hcalls, <- app_assoc. done.
Qed.

Lemma firstNonText_Some (searcherStates : SearcherStates)
    (before after : list AnalyzerEntry) (entry : AnalyzerEntry) :
  Forall (λ x, searcherStates !! name (analyzer x) = Some false
               ∨ type x = "text") before →
  searcherStates !! name (analyzer entry) ≠ Some false →
  type entry ≠ "text" →
  firstNonText (enabledEntries searcherStates (before ++ entry :: after))
  = Some entry.
Proof.
  unfold firstNonText, enabledEntries. intros Hbefore Hen Htype.
  induction Hbefore as [|x before [Hx|Hx] _ IH]; simpl.
  - by rewrite !filter_cons_True.
  - by rewrite filter_cons_False by naive_solver.
  - destruct (decide (searcherStates !! name (analyzer x) = Some false)).
    + by rewrite filter_cons_False by naive_solver.
    + rewrite filter_cons_True by done.
      by rewrite filter_cons_False by naive_solver.
Qed.

Lemma firstNonText_is_Some (searcherStates : SearcherStates)
    (entries : list AnalyzerEntry) :
  is_Some (firstNonText (enabledEntries searcherStates entries))
  ↔ ∃ entry, entry ∈ entries
      ∧ searcherStates !! name (analyzer entry) ≠ Some false
      ∧ type entry ≠ "text".
Proof.
  unfold firstNonText, enabledEntries. rewrite head_is_Some. split.
  - intros Hne.
    destruct (filter _ (filter _ entries)) as [|entry l] eqn:Hfilter; [done|].
    assert (entry ∈ entry :: l) as Hin by left.
    rewrite <- Hfilter, !list_elem_of_filter in Hin.
    destruct Hin as (Htype & Hen & Hin). by exists entry.
  - intros (entry & Hin & Hen & Htype) Hnil.
    assert (entry ∈ filter (λ e, type e ≠ "text")
              (filter (λ e, searcherStates !! name (analyzer e) ≠ Some false)
                 entries)) as Hmem
      by (rewrite !list_elem_of_filter; done).
    rewrite Hnil in Hmem. by apply elem_of_nil in Hmem.
Qed.

Lemma enabledEntries_without (searcherStates : SearcherStates) (n : string)
    (entries : list AnalyzerEntry) :
  searcherStates !! n = Some false →
  enabledEntries searcherStates entries
  = enabledEntries (delete n searcherStates)
      (filter (λ entry, name (analyzer entry) ≠ n) entries).
Proof.
  intros Hoff. unfold enabledEntries. rewrite list_filter_filter.
  apply list_filter_iff. intros entry.
  destruct (decide (name (analyzer entry) = n)) as [->|Hne].
  - split; [done|]. by intros [_ ?].
  - rewrite lookup_delete_ne by done. split; [done|]. by intros [? _].
Qed.

(** *** Rebuilding the menu (C9) *)

(** C9: [createContextMenus] calls [contextMenus.removeAll] before anything
    else.  When that call fails nothing is created; otherwise the function
    returns, every later call is a creation of an item derived from the
    current selection and settings ([expectedMenu], which does not look at
    the world), and the menu it leaves holds only such items: nothing of
    the menu it found is left. *)
Theorem createContextMenus_rebuilds_menu (message : UpdateContextMenuMessage)
    (searcherStates : SearcherStates) (generalSettings : GeneralSettings)
    (w : World) :
  let expected :=
    expectedMenu searcherStates
      (Selector_new (selection message) (enableIDN generalSettings)) in
  match rejects ContextMenusRemoveAll w with
  | Some e =>
      createContextMenus message searcherStates generalSettings w
      = (Throw e, log ContextMenusRemoveAll w)
  | None =>
      ∃ w', createContextMenus message searcherStates generalSettings w
            = (Ok tt, w')
        ∧ calls w'
          = calls w ++ ContextMenusRemoveAll
                       :: (ContextMenusCreate <$> expected)
        ∧ menus w' `sublist_of` expected
        ∧ (accepts_menus → menus w' = expected)
  end.
Proof.
  intros expected.
  destruct (rejects ContextMenusRemoveAll w) as [e|] eqn:Hremove.
  - unfold createContextMenus, browser_contextMenus_removeAll.
    unfold mbind at 1. unfold M_bind at 1.
    by rewrite (perform_rejected _ _ _ _ e).
  - by apply createContextMenus_effect.
Qed.

(** *** The entry shared by all searchers (C8) *)

(** C8: between the searcher items and the scanner items
    [createContextMenus] asks for at most one "on all" item; it does so
    exactly when some searcher entry is enabled and not of type ["text"],
    and the item then carries the query and the type of the first such
    entry in the order of [getSearcherEntries]. *)
Theorem all_entry_from_first_enabled_non_text
    (message : UpdateContextMenuMessage) (searcherStates : SearcherStates)
    (generalSettings : GeneralSettings) (w : World) :
  rejects ContextMenusRemoveAll w = None →
  let selector :=
    Selector_new (selection message) (enableIDN generalSettings) in
  let entries := getSearcherEntries selector in
  ∃ w' allEntries,
    createContextMenus message searcherStates generalSettings w = (Ok tt, w')
    ∧ calls w'
      = calls w ++ ContextMenusRemoveAll
          :: (ContextMenusCreate <$>
                (searchItem <$> enabledEntries searcherStates entries)
                ++ allEntries
                ++ (scanItem <$> getScannerEntries selector))
    ∧ (length allEntries ≤ 1)%nat
    ∧ (allEntries ≠ []
       ↔ ∃ entry, entry ∈ entries
           ∧ searcherStates !! name (analyzer entry) ≠ Some false
           ∧ type entry ≠ "text")
    ∧ (∀ before entry after,
         entries = before ++ entry :: after →
         Forall (λ x, searcherStates !! name (analyzer x) = Some false
                      ∨ type x = "text") before →
         searcherStates !! name (analyzer entry) ≠ Some false →
         type entry ≠ "text" →
         allEntries
         = [ {| MenuItem.contexts := ["selection"];
                MenuItem.id := searchId (query entry) (type entry) "all";
                MenuItem.title := searchTitle (type entry) "all" |} ]).
Proof.
  intros Hremove selector entries.
  destruct (createContextMenus_effect message searcherStates generalSettings
              w Hremove) as (w' & Hrun & Hcalls & _).
  fold selector in Hcalls. unfold expectedMenu in Hcalls.
  fold entries in Hcalls.
  exists w', (allItem <$>
              option_list (firstNonText (enabledEntries searcherStates entries))).
  split_and!; try done.
  - destruct (firstNonText _); simpl; lia.
  - rewrite <- firstNonText_is_Some.
    destruct (firstNonText _); simpl; split; done.
  - intros before entry after Hsplit Hbefore Hen Htype.
    by rewrite Hsplit, firstNonText_Some.
Qed.

(** *** Default-on policy (C5) *)

(** C5: a searcher entry whose analyzer name is not a key of
    [searcherStates] gets its menu item ([createContextMenus] asks for it,
    and it is in the menu when the browser takes the creations); a
    searcher entry is passed over only when the mapping holds [false] for
    its analyzer's name. *)
Theorem absent_analyzer_is_enabled (message : UpdateContextMenuMessage)
    (searcherStates : SearcherStates) (generalSettings : GeneralSettings)
    (w : World) :
  rejects ContextMenusRemoveAll w = None →
  ∃ w', createContextMenus message searcherStates generalSettings w
        = (Ok tt, w')
    ∧ ∀ entry,
        entry ∈ getSearcherEntries
                  (Selector_new (selection message) (enableIDN generalSettings)) →
        (searcherStates !! name (analyzer entry) = None →
         ContextMenusCreate (searchItem entry) ∈ calls w'
         ∧ (accepts_menus → searchItem entry ∈ menus w'))
        ∧ (ContextMenusCreate (searchItem entry) ∉ calls w' →
           searcherStates !! name (analyzer entry) = Some false).
Proof.
  intros Hremove.
  destruct (createContextMenus_effect message searcherStates generalSettings
              w Hremove) as (w' & Hrun & Hcalls & _ & Hmenus).
  exists w'. split; [done|]. intros entry Hin.
  assert (Hitem : searcherStates !! name (analyzer entry) ≠ Some false →
            searchItem entry
            ∈ expectedMenu searcherStates
                (Selector_new (selection message) (enableIDN generalSettings))).
  { intros Hen. unfold expectedMenu. apply elem_of_app. left.
    apply list_elem_of_fmap_2, list_elem_of_filter. done. }
  assert (Hcall : searcherStates !! name (analyzer entry) ≠ Some false →
            ContextMenusCreate (searchItem entry) ∈ calls w').
  { intros Hen. rewrite Hcalls. apply elem_of_app. right.
    apply elem_of_cons. right. apply list_elem_of_fmap_2. auto. }
  split.
  - intros Habsent. split.
    + apply Hcall. congruence.
    + intros Hacc. rewrite Hmenus by done. apply Hitem. congruence.
  - intros Hnot.
    destruct (decide (searcherStates !! name (analyzer entry) = Some false));
      [done|]. by destruct Hnot; apply Hcall.
Qed.

(** *** Disabling an analyzer (C2) *)

(** C2, amended: when [searcherStates] maps an analyzer name to [false], the
    items [createContextMenus] asks for are those it would ask for if the
    name were not in the mapping and the selector had returned no
    searcher entry of that analyzer: its searcher entries are left out and
    nothing else changes.  The scanner entries are not filtered by the
    mapping: each of them gets its item, whatever its analyzer. *)
Theorem disabling_removes_searcher_entries
    (message : UpdateContextMenuMessage) (searcherStates : SearcherStates)
    (generalSettings : GeneralSettings) (n : string) (w : World) :
  searcherStates !! n = Some false →
  rejects ContextMenusRemoveAll w = None →
  let selector :=
    Selector_new (selection message) (enableIDN generalSettings) in
  ∃ w', createContextMenus message searcherStates generalSettings w
        = (Ok tt, w')
    ∧ calls w'
      = calls w ++ ContextMenusRemoveAll
          :: (ContextMenusCreate <$>
                expectedMenu (delete n searcherStates)
                  {| getSearcherEntries :=
                       filter (λ entry, name (analyzer entry) ≠ n)
                         (getSearcherEntries selector);
                     getScannerEntries := getScannerEntries selector |})
    ∧ ∀ entry, entry ∈ getScannerEntries selector →
        ContextMenusCreate (scanItem entry) ∈ calls w'.
Proof.
  intros Hoff Hremove selector.
  destruct (createContextMenus_effect message searcherStates generalSettings
              w Hremove) as (w' & Hrun & Hcalls & _).
  fold selector in Hcalls.
  exists w'. split_and!; [done| |].
  - rewrite Hcalls. unfold expectedMenu. simpl.
    by rewrite <- enabledEntries_without.
  - intros entry Hin. rewrite Hcalls. apply elem_of_app. right.
    apply elem_of_cons. right. apply list_elem_of_fmap_2.
    unfold expectedMenu. rewrite !elem_of_app. right. right.
    by apply list_elem_of_fmap_2.
Qed.

(** ** Further properties of the dispatch handlers *)

Lemma showNotification_throws (message0 : string) (w1 w' : World) (e : Error) :
  showNotification message0 w1 = (Throw e, w') →
  ∃ n, rejects (NotificationsCreate n) w1 = Some e.
Proof.
  unfold showNotification, browser_notifications_create, perform.
  intros Hrun. eexists.
  destruct (rejects (NotificationsCreate _) w1) as [e'|] eqn:Hrej;
    [|discriminate Hrun].
  injection Hrun as -> _. exact Hrej.
Qed.

Lemma try_catch_throws (body : M unit) (w w' : World) (e : Error) :
  try_catch body (λ err, showNotification (message err)) w = (Throw e, w') →
  ∃ n w1, rejects (NotificationsCreate n) w1 = Some e.
Proof.
  unfold try_catch. destruct (body w) as [[[]|e0] w1]; [discriminate|].
  intros Hrun. apply showNotification_throws in Hrun as [n Hn]. eauto.
Qed.

Lemma try_catch_throws_notification (body : M unit) (w w' : World)
    (e : Error) :
  try_catch body (λ err, showNotification (message err)) w = (Throw e, w') →
  ∃ e0 w1, body w = (Throw e0, w1)
    ∧ rejects (NotificationsCreate (notificationOf e0)) w1 = Some e
    ∧ w' = log (NotificationsCreate (notificationOf e0)) w1.
Proof.
  unfold try_catch. destruct (body w) as [[[]|e0] w1]; [discriminate|].
  unfold showNotification, browser_notifications_create, perform.
  fold (notificationOf e0).
  destruct (rejects (NotificationsCreate (notificationOf e0)) w1) as [e'|]
    eqn:Hrej; [|discriminate].
  intros [= -> <-]. by exists e0, w1.
Qed.

(** X1: [search] and [searchAll] end with an exception in one case only:
    their [try] block threw some error, the handler asked for the
    notification of that error, and the browser rejected that very call;
    the exception that leaves is the browser's, and the notification call
    is the last thing that happened.  [scan] ends with an exception in
    that case and in one more: [getApiKeys] failed, and then its error
    leaves right after that call. *)
Theorem handlers_throw_only_browser_errors (command : Command.t)
    (w w' : World) (e : Error) :
  (search command w = (Throw e, w') →
   ∃ e0 w1, search_try command w = (Throw e0, w1)
     ∧ rejects (NotificationsCreate (notificationOf e0)) w1 = Some e
     ∧ w' = log (NotificationsCreate (notificationOf e0)) w1)
  ∧ (searchAll command w = (Throw e, w') →
     ∃ e0 w1, searchAll_try command w = (Throw e0, w1)
       ∧ rejects (NotificationsCreate (notificationOf e0)) w1 = Some e
       ∧ w' = log (NotificationsCreate (notificationOf e0)) w1)
  ∧ (scan command w = (Throw e, w') →
     (rejects GetApiKeys w = Some e ∧ w' = log GetApiKeys w)
     ∨ (rejects GetApiKeys w = None
        ∧ ∃ e0 w1,
            scan_try command (currentApiKeys w) (log GetApiKeys w)
            = (Throw e0, w1)
            ∧ rejects (NotificationsCreate (notificationOf e0)) w1 = Some e
            ∧ w' = log (NotificationsCreate (notificationOf e0)) w1)).
Proof.
  split_and!.
  - apply try_catch_throws_notification.
  - apply try_catch_throws_notification.
  - destruct (rejects GetApiKeys w) as [e0|] eqn:Hkeys.
    + unfold scan, mbind, M_bind.
      rewrite (getApiKeys_rejected _ e0) by done.
      intros [= -> <-]. by left.
    + rewrite scan_after_keys by done. intros Hrun. right. split; [done|].
      by apply try_catch_throws_notification in Hrun.
Qed.

(** X2: with a browser that accepts every notification, [search] and
    [searchAll] return normally in every world, whatever [Command] and
    the other browser calls do. *)
Theorem search_handlers_return (command : Command.t) (w : World) :
  (∀ n w1, rejects (NotificationsCreate n) w1 = None) →
  (∃ w', search command w = (Ok tt, w'))
  ∧ (∃ w', searchAll command w = (Ok tt, w')).
Proof.
  intros Hacc. split.
  - destruct (search command w) as [[[]|e] w'] eqn:Hrun; [eauto|].
    apply try_catch_throws in Hrun as (n & w1 & Hn). by rewrite Hacc in Hn.
  - destruct (searchAll command w) as [[[]|e] w'] eqn:Hrun; [eauto|].
    apply try_catch_throws in Hrun as (n & w1 & Hn). by rewrite Hacc in Hn.
Qed.

(** X3: when [getApiKeys] fails, [scan] fails with the same error and the
    world it leaves differs from the one it found by that one logged call
    only: no tab is opened and no notification is shown, so the failure
    is not reported to the user. *)
Theorem scan_passes_on_getApiKeys_failure (command : Command.t) (w : World)
    (e : Error) :
  rejects GetApiKeys w = Some e →
  scan command w = (Throw e, log GetApiKeys w).
Proof.
  intros Hkeys. unfold scan, mbind, M_bind.
  by rewrite (getApiKeys_rejected _ e).
Qed.

(** X4: one run of [search] opens at most one tab and shows at most one
    notification, never both: either it opens the non-empty URL that
    [Command.search] returned, or the tabs stay as they were and at most
    one notification is added. *)
Theorem search_tab_or_notification (command : Command.t) (w : World) :
  let w' := (search command w).2 in
  (∃ url, Command_search command = Ok url ∧ url ≠ ""
     ∧ tabs w' = tabs w ++ [url] ∧ notifications w' = notifications w)
  ∨ (tabs w' = tabs w
     ∧ (notifications w' = notifications w
        ∨ ∃ e, notifications w' = notifications w ++ [notificationOf e])).
Proof.
  assert (Hnote : ∀ e w1, tabs w1 = tabs w →
            notifications w1 = notifications w →
            tabs (showNotification (message e) w1).2 = tabs w
            ∧ (notifications (showNotification (message e) w1).2
               = notifications w
               ∨ ∃ e', notifications (showNotification (message e) w1).2
                       = notifications w ++ [notificationOf e'])).
  { intros e w1 Ht Hn.
    unfold showNotification, browser_notifications_create, perform.
    fold (notificationOf e).
    destruct (rejects _ w1); simpl; rewrite ?Ht, ?Hn; eauto. }
  unfold search, search_try, try_catch, mbind, M_bind, lift. simpl.
  destruct (Command_search command) as [url|e]; [|right; by apply Hnote].
  case_decide as Hurl; [|by right; split; [|left]].
  unfold browser_tabs_create, perform.
  destruct (rejects (TabsCreate url) w) as [e|]; [right; by apply Hnote|].
  left. by exists url.
Qed.

(** The loop of [searchAll] stops at the first URL the browser refuses. *)
Lemma for_of_tabs_first_rejected (before after : list string) (url : string)
    (e : Error) :
  (∀ u w', u ∈ before → rejects (TabsCreate u) w' = None) →
  (∀ w', rejects (TabsCreate url) w' = Some e) →
  ∀ w, ∃ w1,
    for_of (before ++ url :: after) browser_tabs_create w = (Throw e, w1)
    ∧ tabs w1 = tabs w ++ before
    ∧ calls w1 = calls w ++ (TabsCreate <$> before) ++ [TabsCreate url]
    ∧ notifications w1 = notifications w.
Proof.
  intros Hbefore Hurl.
  induction before as [|u before IH]; intros w; simpl; unfold mbind, M_bind.
  - rewrite (tabs_create_rejected _ _ e) by done.
    eexists. split; [done|]. simpl. by rewrite app_nil_r.
  - rewrite tabs_create_accepted by (apply Hbefore; left).
    destruct (IH (λ u' w' Hin, Hbefore u' w' (list_elem_of_further _ _ _ Hin))
                (open_tab u (log (TabsCreate u) w)))
      as (w1 & -> & Ht & Hc & Hn).
    exists w1. split; [done|]. rewrite Ht, Hc, Hn. simpl.
    by rewrite <- !app_assoc.
Qed.

(** X5: when the browser refuses one of the URLs of [searchAll], the URLs
    before it are opened, those after it are not tried, and a
    notification with the browser's message is asked for. *)
Theorem searchAll_stops_at_first_refusal (command : Command.t) (w : World)
    (before after : list string) (url : string) (e : Error) :
  rejects (StorageSyncGet "searcherStates") w = None →
  Command_searchAll command (currentStates w) = Ok (before ++ url :: after) →
  (∀ u w', u ∈ before → rejects (TabsCreate u) w' = None) →
  (∀ w', rejects (TabsCreate url) w' = Some e) →
  let w' := (searchAll command w).2 in
  tabs w' = tabs w ++ before
  ∧ calls w'
    = calls w ++ StorageSyncGet "searcherStates"
        :: (TabsCreate <$> before)
        ++ [TabsCreate url; NotificationsCreate (notificationOf e)].
Proof.
  intros Hget Hurls Hbefore Hurl. unfold searchAll, try_catch.
  rewrite searchAll_try_after_get by done.
  unfold mbind, M_bind, lift. rewrite Hurls.
  destruct (for_of_tabs_first_rejected before after url e Hbefore Hurl
              (log (StorageSyncGet "searcherStates") w))
    as (w1 & -> & Ht & Hc & _).
  unfold showNotification, browser_notifications_create, perform.
  fold (notificationOf e).
  destruct (rejects (NotificationsCreate (notificationOf e)) w1); simpl;
    rewrite Ht, Hc; simpl; by rewrite <- !app_assoc.
Qed.

Lemma searchAll_try_rejected (command : Command.t) (w : World) (e : Error) :
  rejects (StorageSyncGet "searcherStates") w = Some e →
  searchAll_try command w = (Throw e, log (StorageSyncGet "searcherStates") w).
Proof.
  intros Hget. unfold searchAll_try, browser_storage_sync_get.
  unfold mbind at 1. unfold M_bind at 1.
  by rewrite (perform_rejected _ _ _ _ e).
Qed.

(** X6: when the read of ["searcherStates"] fails, [searchAll] opens no tab
    and asks for a notification with the error's message right after the
    read, whatever [Command.searchAll] would have returned. *)
Theorem searchAll_reports_storage_failure (command : Command.t) (w : World)
    (e : Error) :
  rejects (StorageSyncGet "searcherStates") w = Some e →
  let w' := (searchAll command w).2 in
  tabs w' = tabs w
  ∧ calls w'
    = calls w ++ [StorageSyncGet "searcherStates";
                  NotificationsCreate (notificationOf e)].
Proof.
  intros Hget. unfold searchAll, try_catch.
  rewrite (searchAll_try_rejected _ _ e) by done.
  unfold showNotification, browser_notifications_create, perform.
  fold (notificationOf e).
  destruct (rejects (NotificationsCreate (notificationOf e)) _); simpl;
    by rewrite <- app_assoc.
Qed.

(** ** What a click leaves alone *)

Lemma grows_refl (w : World) : grows w w.
Proof. by split_and!. Qed.

Lemma grows_trans (w1 w2 w3 : World) : grows w1 w2 → grows w2 w3 → grows w1 w3.
Proof.
  intros (Hm1 & Hc1 & Ht1 & Hn1) (Hm2 & Hc2 & Ht2 & Hn2).
  split_and!; [congruence|congruence|by etrans|by etrans].
Qed.

Lemma grows_log (c : Call) (w : World) : grows w (log c w).
Proof. by split_and!. Qed.

Lemma steady_ret {A} (a : A) : steady (mret a).
Proof. intros w. apply grows_refl. Qed.

Lemma steady_bind {A B} (m : M A) (k : A → M B) :
  steady m → (∀ a, steady (k a)) → steady (m ≫= k).
Proof.
  intros Hm Hk w. unfold mbind, M_bind. specialize (Hm w).
  destruct (m w) as [[a|e] w']; simpl in *; [|done].
  eapply grows_trans; [done|apply Hk].
Qed.

Lemma steady_try_catch {A} (body : M A) (handler : Error → M A) :
  steady body → (∀ e, steady (handler e)) → steady (try_catch body handler).
Proof.
  intros Hm Hk w. unfold try_catch. specialize (Hm w).
  destruct (body w) as [[a|e] w']; simpl in *; [done|].
  eapply grows_trans; [done|apply Hk].
Qed.

Lemma steady_perform {A} (c : Call) (result : World → A)
    (effect : World → World) :
  (∀ w, grows w (effect w)) → steady (perform c result effect).
Proof.
  intros Heff w. unfold perform. destruct (rejects c w); simpl.
  - apply grows_log.
  - apply (grows_trans _ (log c w)); [apply grows_log|apply Heff].
Qed.

Lemma steady_tabs_create (url : string) : steady (browser_tabs_create url).
Proof.
  apply steady_perform. intros w. split_and!; try done.
  by apply prefix_app_r.
Qed.

Lemma steady_showNotification (message0 : string) :
  steady (showNotification message0).
Proof.
  apply steady_perform. intros w. split_and!; try done.
  by apply prefix_app_r.
Qed.

Lemma steady_for_of {A} (xs : list A) (body : A → M unit) :
  (∀ x, steady (body x)) → steady (for_of xs body).
Proof.
  intros Hbody. induction xs as [|x xs IH]; simpl.
  - apply steady_ret.
  - apply steady_bind; [apply Hbody|done].
Qed.

Lemma steady_search (command : Command.t) : steady (search command).
Proof.
  apply steady_try_catch; [|intros; apply steady_showNotification].
  apply steady_bind; [intros w; apply grows_refl|]. intros url.
  case_decide; [apply steady_tabs_create|apply steady_ret].
Qed.

Lemma steady_searchAll (command : Command.t) : steady (searchAll command).
Proof.
  apply steady_try_catch; [|intros; apply steady_showNotification].
  apply steady_bind; [apply steady_perform; intros; apply grows_refl|].
  intros config. apply steady_bind; [intros w; apply grows_refl|].
  intros urls. apply steady_for_of, steady_tabs_create.
Qed.

Lemma steady_scan (command : Command.t) : steady (scan command).
Proof.
  apply steady_bind; [apply steady_perform; intros; apply grows_refl|].
  intros apiKeys.
  apply steady_try_catch; [|intros; apply steady_showNotification].
  apply steady_bind; [intros w; apply grows_refl|]. intros url.
  case_decide; [apply steady_tabs_create|apply steady_ret].
Qed.

(** X7: whatever the clicked id parses to, the click handler leaves the
    context menu and the console as they were, and the tabs and
    notifications present before are still there, in place, after it. *)
Theorem onClicked_keeps_menu (menuItemId : string) (w : World) :
  let w' := (onClicked menuItemId w).2 in
  menus w' = menus w
  ∧ console w' = console w
  ∧ tabs w `prefix_of` tabs w'
  ∧ notifications w `prefix_of` notifications w'.
Proof.
  unfold onClicked. repeat case_decide.
  - apply steady_searchAll.
  - apply steady_search.
  - apply steady_scan.
  - apply grows_refl.
Qed.

(** X8: a click on a search entry of a single analyzer reads no setting:
    the handler issues tab and notification calls only, and the stored
    settings are untouched. *)
Theorem onClicked_single_search_reads_nothing (menuItemId : string)
    (w : World) :
  Command.action (Command_new menuItemId) = "search" →
  Command.target (Command_new menuItemId) ≠ "all" →
  outputs_only w (onClicked menuItemId w).2.
Proof.
  intros Haction Htarget. unfold onClicked.
  rewrite decide_True, decide_False by done. apply quiet_search.
Qed.

(** ** Further properties of the menu builder *)

Lemma createContextMenus_removeAll_rejected
    (message : UpdateContextMenuMessage) (searcherStates : SearcherStates)
    (generalSettings : GeneralSettings) (w : World) (e : Error) :
  rejects ContextMenusRemoveAll w = Some e →
  createContextMenus message searcherStates generalSettings w
  = (Throw e, log ContextMenusRemoveAll w).
Proof.
  intros Hremove. unfold createContextMenus, browser_contextMenus_removeAll.
  unfold mbind at 1. unfold M_bind at 1.
  by rewrite (perform_rejected _ _ _ _ e).
Qed.

(** X9: [createContextMenus] opens no tab, shows no notification and leaves
    the stored settings alone, in every world and whether or not the
    browser accepts its calls. *)
Theorem createContextMenus_touches_menu_only
    (message : UpdateContextMenuMessage) (searcherStates : SearcherStates)
    (generalSettings : GeneralSettings) (w : World) :
  let w' := (createContextMenus message searcherStates generalSettings w).2 in
  storage w' = storage w ∧ tabs w' = tabs w
  ∧ notifications w' = notifications w.
Proof.
  destruct (rejects ContextMenusRemoveAll w) as [e|] eqn:Hremove.
  - by rewrite (createContextMenus_removeAll_rejected _ _ _ _ e).
  - destruct (createContextMenus_run message searcherStates generalSettings
                w Hremove) as (w' & -> & _ & _ & Hs & Ht & Hn).
    done.
Qed.

Lemma sorted_out_nil (refusal : MenuItem.t → option Error) (w : World) :
  sorted_out refusal [] w w.
Proof. split; by rewrite app_nil_r. Qed.

Lemma sorted_out_app (refusal : MenuItem.t → option Error)
    (l1 l2 : list MenuItem.t) (w1 w2 w3 : World) :
  sorted_out refusal l1 w1 w2 → sorted_out refusal l2 w2 w3 →
  sorted_out refusal (l1 ++ l2) w1 w3.
Proof.
  intros [Hm1 Hc1] [Hm2 Hc2]. split.
  - by rewrite Hm2, Hm1, filter_app, app_assoc.
  - by rewrite Hc2, Hc1, omap_app, app_assoc.
Qed.

Lemma contextMenus_create_sorted_out (refusal : MenuItem.t → option Error)
    (item : MenuItem.t) (w : World) :
  (∀ item w1, rejects (ContextMenusCreate item) w1 = refusal item) →
  sorted_out refusal [item] w
    (browser_contextMenus_create item createContextMenuErrorHandler w).2.
Proof.
  intros Hrefusal. unfold browser_contextMenus_create, sorted_out.
  rewrite Hrefusal. simpl.
  destruct (refusal item) as [e|] eqn:Hitem; simpl.
  - rewrite filter_cons_False by (by rewrite Hitem). by rewrite app_nil_r.
  - rewrite filter_cons_True by done. by rewrite app_nil_r.
Qed.

Lemma for_of_create_sorted_out {A} (refusal : MenuItem.t → option Error)
    (f : A → MenuItem.t) (xs : list A) :
  (∀ item w1, rejects (ContextMenusCreate item) w1 = refusal item) →
  ∀ w, sorted_out refusal (f <$> xs) w
         (for_of xs (λ x,
            browser_contextMenus_create (f x) createContextMenuErrorHandler)
            w).2.
Proof.
  intros Hrefusal. induction xs as [|x xs IH]; intros w.
  - apply sorted_out_nil.
  - simpl. unfold mbind, M_bind.
    pose proof (contextMenus_create_sorted_out refusal (f x) w Hrefusal)
      as Hone.
    destruct (contextMenus_create_run (f x) w) as (w1 & Hrun & _).
    rewrite Hrun in Hone |- *.
    apply (sorted_out_app refusal [f x] (f <$> xs) w w1); [done|apply IH].
Qed.

Lemma searcherLoop_sorted_out (refusal : MenuItem.t → option Error)
    (searcherStates : SearcherStates) (entries : list AnalyzerEntry) :
  (∀ item w1, rejects (ContextMenusCreate item) w1 = refusal item) →
  ∀ (nonTextEntry : option AnalyzerEntry) (w : World),
    sorted_out refusal (searchItem <$> enabledEntries searcherStates entries) w
      (searcherLoop searcherStates entries nonTextEntry w).2.
Proof.
  intros Hrefusal. unfold enabledEntries.
  induction entries as [|entry rest IH]; intros nonTextEntry w.
  - apply sorted_out_nil.
  - simpl searcherLoop.
    destruct (js_in (name (analyzer entry)) searcherStates
              && js_not (searcherStates !! name (analyzer entry)))
      eqn:Hskip.
    + apply skip_iff_mapped_to_false in Hskip.
      rewrite filter_cons_False by (by intros ?). apply IH.
    + assert (searcherStates !! name (analyzer entry) ≠ Some false) as Hen.
      { intros Hfalse. apply skip_iff_mapped_to_false in Hfalse. congruence. }
      rewrite filter_cons_True by done. unfold mbind, M_bind.
      pose proof (contextMenus_create_sorted_out refusal (searchItem entry) w
                    Hrefusal) as Hone.
      destruct (contextMenus_create_run (searchItem entry) w)
        as (w1 & Hrun & _).
      rewrite Hrun in Hone |- *. rewrite fmap_cons.
      apply (sorted_out_app refusal [_] _ w w1); [done|apply IH].
Qed.

Lemma createContextMenus_sorted_out (refusal : MenuItem.t → option Error)
    (message : UpdateContextMenuMessage) (searcherStates : SearcherStates)
    (generalSettings : GeneralSettings) (w : World) :
  (∀ item w1, rejects (ContextMenusCreate item) w1 = refusal item) →
  rejects ContextMenusRemoveAll w = None →
  sorted_out refusal
    (expectedMenu searcherStates
       (Selector_new (selection message) (enableIDN generalSettings)))
    (clear_menus (log ContextMenusRemoveAll w))
    (createContextMenus message searcherStates generalSettings w).2.
Proof.
  intros Hrefusal Hremove. unfold createContextMenus, expectedMenu.
  set (selector := Selector_new _ _).
  unfold mbind at 1. unfold M_bind at 1.
  unfold browser_contextMenus_removeAll. rewrite perform_accepted by done.
  set (w0 := clear_menus _). simpl.
  unfold mbind at 1. unfold M_bind at 1.
  pose proof (searcherLoop_sorted_out refusal searcherStates
                (getSearcherEntries selector) Hrefusal None w0) as Hsearch.
  destruct (searcherLoop_run searcherStates (getSearcherEntries selector)
              None w0) as (w1 & Hrun1 & _).
  rewrite Hrun1 in Hsearch |- *. simpl in Hsearch.
  unfold mbind at 1. unfold M_bind at 1.
  pose proof (for_of_create_sorted_out refusal scanItem
                (getScannerEntries selector) Hrefusal) as Hscan.
  destruct (firstNonText _) as [found|]; simpl.
  - pose proof (contextMenus_create_sorted_out refusal (allItem found) w1
                  Hrefusal) as Hall.
    destruct (contextMenus_create_run (allItem found) w1) as (w2 & Hrun2 & _).
    rewrite Hrun2 in Hall |- *.
    apply (sorted_out_app refusal _ _ w0 w1); [done|].
    apply (sorted_out_app refusal [_] _ w1 w2); [done|apply Hscan].
  - apply (sorted_out_app refusal _ _ w0 w1); [done|apply Hscan].
Qed.

(** X10: a menu creation the browser refuses does not stop the build.  When
    the browser answers each creation by [refusal] (an error for the
    items it refuses), the menu left by [createContextMenus] holds the
    items of the expected menu that were not refused, in order, and the
    console has received the messages of the errors reported for the
    refused ones, in order, and nothing else. *)
Theorem refused_creations_are_logged (refusal : MenuItem.t → option Error)
    (update : UpdateContextMenuMessage) (searcherStates : SearcherStates)
    (generalSettings : GeneralSettings) (w : World) :
  (∀ item w1, rejects (ContextMenusCreate item) w1 = refusal item) →
  rejects ContextMenusRemoveAll w = None →
  let expected :=
    expectedMenu searcherStates
      (Selector_new (selection update) (enableIDN generalSettings)) in
  ∃ w',
    createContextMenus update searcherStates generalSettings w = (Ok tt, w')
    ∧ menus w' = filter (λ item, refusal item = None) expected
    ∧ console w'
      = console w ++ omap (λ item, message <$> refusal item) expected.
Proof.
  intros Hrefusal Hremove expected.
  pose proof (createContextMenus_sorted_out refusal update searcherStates
                generalSettings w Hrefusal Hremove) as [Hm Hc].
  destruct (createContextMenus_effect update searcherStates generalSettings
              w Hremove) as (w' & Hrun & _).
  rewrite Hrun in Hm, Hc. simpl in Hm, Hc.
  by exists w'.
Qed.

Lemma enabledEntries_none (searcherStates : SearcherStates)
    (entries : list AnalyzerEntry) :
  (∀ entry, entry ∈ entries →
     searcherStates !! name (analyzer entry) = Some false) →
  enabledEntries searcherStates entries = [].
Proof.
  unfold enabledEntries. induction entries as [|entry rest IH]; [done|].
  intros Hoff. rewrite filter_cons_False.
  - apply IH. intros e He. apply Hoff. by right.
  - intros Hen. apply Hen, Hoff. left.
Qed.

Lemma enabledEntries_empty_states (entries : list AnalyzerEntry) :
  enabledEntries ∅ entries = entries.
Proof.
  unfold enabledEntries. induction entries as [|entry rest IH]; [done|].
  rewrite filter_cons_True by (by rewrite lookup_empty). by rewrite IH.
Qed.

(** X11: when [searcherStates] maps the analyzer of every searcher entry to
    [false], the build asks for the scanner items only: no searcher item
    and no "on all" item. *)
Theorem all_searchers_disabled_leaves_scanners
    (message : UpdateContextMenuMessage) (searcherStates : SearcherStates)
    (generalSettings : GeneralSettings) (w : World) :
  rejects ContextMenusRemoveAll w = None →
  let selector :=
    Selector_new (selection message) (enableIDN generalSettings) in
  (∀ entry, entry ∈ getSearcherEntries selector →
     searcherStates !! name (analyzer entry) = Some false) →
  ∃ w', createContextMenus message searcherStates generalSettings w
        = (Ok tt, w')
    ∧ calls w'
      = calls w ++ ContextMenusRemoveAll
          :: (ContextMenusCreate <$> (scanItem <$> getScannerEntries selector)).
Proof.
  intros Hremove selector Hoff.
  destruct (createContextMenus_effect message searcherStates generalSettings
              w Hremove) as (w' & Hrun & Hcalls & _).
  exists w'. split; [done|]. rewrite Hcalls. unfold expectedMenu.
  fold selector. by rewrite enabledEntries_none.
Qed.

(** ** The message listener *)

(** X12: a message whose request is not ["updateContextMenu"] is ignored:
    the listener returns and the world is the one it started from. *)
Theorem onMessage_ignores_other_requests (message : UpdateContextMenuMessage)
    (w : World) :
  request message ≠ "updateContextMenu" →
  onMessage message w = (Ok tt, w).
Proof. intros Hreq. unfold onMessage. by rewrite decide_False. Qed.

(** X13: when the read of ["searcherStates"] fails, the listener fails with
    that error right after the read: the settings are not asked for, the
    menu is not cleared, and the entries of the previous selection stay. *)
Theorem onMessage_storage_failure_keeps_menu
    (message : UpdateContextMenuMessage) (w : World) (e : Error) :
  request message = "updateContextMenu" →
  rejects (StorageSyncGet "searcherStates") w = Some e →
  onMessage message w = (Throw e, log (StorageSyncGet "searcherStates") w).
Proof.
  intros Hreq Hget. unfold onMessage. rewrite decide_True by done.
  unfold mbind at 1. unfold M_bind at 1. unfold browser_storage_sync_get.
  by rewrite (perform_rejected _ _ _ _ e).
Qed.

Lemma onMessage_update (message : UpdateContextMenuMessage) (w w2 : World)
    (generalSettings : GeneralSettings) :
  request message = "updateContextMenu" →
  rejects (StorageSyncGet "searcherStates") w = None →
  getGeneralSettings (log (StorageSyncGet "searcherStates") w)
  = (Ok generalSettings, w2) →
  onMessage message w
  = createContextMenus message (currentStates w) generalSettings w2.
Proof.
  intros Hreq Hget Hsettings. unfold onMessage. rewrite decide_True by done.
  unfold mbind at 1. unfold M_bind at 1. unfold browser_storage_sync_get.
  rewrite perform_accepted by done. simpl.
  unfold mbind at 1. unfold M_bind at 1. rewrite Hsettings.
  unfold currentStates, js_in.
  destruct (stored_searcherStates (storage w)) as [states|]; simpl.
  - by rewrite lookup_singleton_eq.
  - by rewrite lookup_empty.
Qed.

(** X14: on an ["updateContextMenu"] message the listener reads the stored
    states and the general settings and rebuilds the menu from the
    message's selection with them: after [removeAll] it asks for the
    items of the expected menu under the states stored at that moment
    (the empty mapping when none are stored), and for nothing else. *)
Theorem onMessage_rebuilds_with_stored_states
    (message : UpdateContextMenuMessage) (w w2 : World)
    (generalSettings : GeneralSettings) :
  request message = "updateContextMenu" →
  rejects (StorageSyncGet "searcherStates") w = None →
  getGeneralSettings (log (StorageSyncGet "searcherStates") w)
  = (Ok generalSettings, w2) →
  rejects ContextMenusRemoveAll w2 = None →
  ∃ w', onMessage message w = (Ok tt, w')
    ∧ calls w'
      = calls w2 ++ ContextMenusRemoveAll
          :: (ContextMenusCreate <$>
                expectedMenu (currentStates w)
                  (Selector_new (selection message)
                     (enableIDN generalSettings))).
Proof.
  intros Hreq Hget Hsettings Hremove.
  rewrite (onMessage_update message w w2 generalSettings) by done.
  destruct (createContextMenus_effect message (currentStates w)
              generalSettings w2 Hremove) as (w' & Hrun & Hcalls & _).
  eauto.
Qed.

(** X15: on a profile where no ["searcherStates"] are stored, an
    ["updateContextMenu"] message gets an item for every searcher entry of
    the selection, in the selector's order, before the "on all" item and
    the scanner items. *)
Theorem onMessage_fresh_profile_lists_every_searcher
    (message : UpdateContextMenuMessage) (w w2 : World)
    (generalSettings : GeneralSettings) :
  request message = "updateContextMenu" →
  stored_searcherStates (storage w) = None →
  rejects (StorageSyncGet "searcherStates") w = None →
  getGeneralSettings (log (StorageSyncGet "searcherStates") w)
  = (Ok generalSettings, w2) →
  rejects ContextMenusRemoveAll w2 = None →
  let selector :=
    Selector_new (selection message) (enableIDN generalSettings) in
  ∃ w', onMessage message w = (Ok tt, w')
    ∧ calls w'
      = calls w2 ++ ContextMenusRemoveAll
          :: (ContextMenusCreate <$>
                (searchItem <$> getSearcherEntries selector)
                ++ (allItem <$>
                      option_list (firstNonText (getSearcherEntries selector)))
                ++ (scanItem <$> getScannerEntries selector)).
Proof.
  intros Hreq Hnone Hget Hsettings Hremove selector.
  rewrite (onMessage_update message w w2 generalSettings) by done.
  destruct (createContextMenus_effect message (currentStates w)
              generalSettings w2 Hremove) as (w' & Hrun & Hcalls & _).
  exists w'. split; [done|]. rewrite Hcalls.
  unfold expectedMenu, currentStates. rewrite Hnone. simpl.
  fold selector. by rewrite enabledEntries_empty_states.
Qed.

End Background.

(** ** The ONYPHE searcher (C7) *)

(** C7: for every query, [searchByIP] of a freshly constructed ONYPHE
    searcher returns ["https://www.onyphe.io/ip/"] followed by the query;
    it is a total function of its argument. *)
Theorem onyphe_searchByIP (query : string) :
  ONYPHE.searchByIP ONYPHE.new query = "https://www.onyphe.io/ip/" +:+ query.
Proof. reflexivity. Qed.

(** ** Menu ids (C1) *)

Lemma append_cons (c : ascii) (s t : string) :
  String c s +:+ t = String c (s +:+ t).
Proof. reflexivity. Qed.









(** ** The statements on concrete inputs *)

(** C7 on a concrete address. *)
Example onyphe_google_dns :
  ONYPHE.searchByIP ONYPHE.new "8.8.8.8" = "https://www.onyphe.io/ip/8.8.8.8".
Proof. reflexivity. Qed.


(** C2: with the scanner's name mapped to [false], its scanner entry is
    still put in the menu. *)
Lemma disabled_scanner_still_listed :
  ({["Scanner" := false]} : SearcherStates) !! name Scanner = Some false
  ∧ getScannerEntries (sample_Selector "8.8.8.8" false)
    = [mkEntry Scanner "ip" "8.8.8.8"]
  ∧ scanItem (mkEntry Scanner "ip" "8.8.8.8")
    ∈ menus (createContextMenus accept_all sample_Selector
               (mkMessage "updateContextMenu" "8.8.8.8")
               {["Scanner" := false]} (mkGeneralSettings false)
               empty_world).2.
Proof.
  split_and!; [done..|]. vm_compute. do 4 right. left.
Qed.

Lemma disabling_removes_searcher_entries_witness :
  ∃ w', createContextMenus accept_all sample_Selector
          (mkMessage "updateContextMenu" "8.8.8.8")
          {["ONYPHE" := false]} (mkGeneralSettings false) stale_world
        = (Ok tt, w')
    ∧ calls w'
      = ContextMenusRemoveAll
        :: (ContextMenusCreate <$>
              [ searchItem (mkEntry Finder "text" "8.8.8.8");
                searchItem (mkEntry Finder "ip" "8.8.8.8");
                allItem (mkEntry Finder "ip" "8.8.8.8");
                scanItem (mkEntry Scanner "ip" "8.8.8.8") ]).
Proof.
  destruct (disabling_removes_searcher_entries accept_all sample_Selector
              (mkMessage "updateContextMenu" "8.8.8.8")
              {["ONYPHE" := false]} (mkGeneralSettings false) "ONYPHE"
              stale_world)
    as (w' & Hrun & Hcalls & _); [reflexivity..|].
  exists w'. split; [exact Hrun|]. rewrite Hcalls. vm_compute. reflexivity.
Defined.


(** C4: an exception of [getApiKeys] leaves [scan] uncaught and unreported,
    and so does, in every handler, an exception of the notification
    itself. *)
Lemma exception_escapes_dispatch :
  scan storage_unavailable sample_scan onIp empty_world
  = (Throw {| message := "storage is unavailable" |},
     log GetApiKeys empty_world)
  ∧ notifications
      (scan storage_unavailable sample_scan onIp empty_world).2 = []
  ∧ (search notifications_unavailable failing_search onIp empty_world).1
    = Throw {| message := "permission denied" |}.
Proof. split_and!; reflexivity. Qed.

Lemma dispatch_catches_try_block_witness :
  caught accept_all {| message := "unsupported type" |} empty_world
    (search accept_all failing_search onIp empty_world)
  ∧ caught tabs_unavailable {| message := "No current window" |}
      (log (TabsCreate "https://www.onyphe.io/ip/8.8.8.8")
         (log (StorageSyncGet "searcherStates") empty_world))
      (searchAll tabs_unavailable sample_searchAll onIp empty_world)
  ∧ caught accept_all {| message := "Please set your API key" |}
      (log GetApiKeys empty_world)
      (scan accept_all sample_scan onIp empty_world).
Proof.
  split; [|split].
  - apply (dispatch_catches_try_block accept_all failing_search
             sample_searchAll sample_scan onIp empty_world).
    reflexivity.
  - apply (dispatch_catches_try_block tabs_unavailable sample_search
             sample_searchAll sample_scan onIp empty_world).
    reflexivity.
  - apply (dispatch_catches_try_block accept_all sample_search
             sample_searchAll sample_scan onIp empty_world); reflexivity.
Defined.

Lemma dispatch_reads_settings_fresh_witness :
  searchAll accept_all sample_searchAll onIp stale_world
  = (Ok tt, log (StorageSyncGet "searcherStates") stale_world)
  ∧ scan accept_all sample_scan onIp stale_world
    = (Ok tt, log GetApiKeys stale_world).
Proof.
  split.
  - rewrite (proj1 (proj2 (dispatch_reads_settings_fresh accept_all
               sample_search sample_searchAll sample_scan onIp stale_world)));
      reflexivity.
  - rewrite (proj1 (proj2 (proj2 (proj2 (dispatch_reads_settings_fresh
               accept_all sample_search sample_searchAll sample_scan onIp
               stale_world))))); reflexivity.
Defined.

Lemma onClicked_unknown_action_ignored_witness :
  Command.action (sample_Command_new "Open 8.8.8.8 as a ip on ONYPHE") ≠ "search"
  ∧ Command.action (sample_Command_new "Open 8.8.8.8 as a ip on ONYPHE") ≠ "scan"
  ∧ onClicked accept_all sample_Command_new sample_search sample_searchAll
      sample_scan "Open 8.8.8.8 as a ip on ONYPHE" stale_world
    = (Ok tt, stale_world).
Proof.
  split; [discriminate|]. split; [discriminate|].
  apply onClicked_unknown_action_ignored; discriminate.
Defined.

Lemma createContextMenus_rebuilds_menu_witness :
  ∃ w', createContextMenus accept_all sample_Selector
          (mkMessage "updateContextMenu" "8.8.8.8") ∅
          (mkGeneralSettings false) stale_world = (Ok tt, w')
    ∧ menus w'
      = [ searchItem (mkEntry Finder "text" "8.8.8.8");
          searchItem (mkEntry ONYPHE.new "ip" "8.8.8.8");
          searchItem (mkEntry Finder "ip" "8.8.8.8");
          allItem (mkEntry ONYPHE.new "ip" "8.8.8.8");
          scanItem (mkEntry Scanner "ip" "8.8.8.8") ].
Proof.
  destruct (createContextMenus_rebuilds_menu accept_all sample_Selector
              (mkMessage "updateContextMenu" "8.8.8.8") ∅
              (mkGeneralSettings false) stale_world)
    as (w' & Hrun & _ & _ & Hmenus).
  exists w'. split; [exact Hrun|]. rewrite Hmenus; [|intros ? ?]; reflexivity.
Defined.

Lemma all_entry_from_first_enabled_non_text_witness :
  accept_all ContextMenusRemoveAll stale_world = None
  ∧ ∃ w', createContextMenus accept_all sample_Selector
            (mkMessage "updateContextMenu" "8.8.8.8") {["ONYPHE" := false]}
            (mkGeneralSettings false) stale_world = (Ok tt, w')
      ∧ ContextMenusCreate
          {| MenuItem.contexts := ["selection"];
             MenuItem.id := "Search 8.8.8.8 as a ip on all";
             MenuItem.title := "Search this ip on all" |} ∈ calls w'.
Proof.
  split; [reflexivity|].
  destruct (all_entry_from_first_enabled_non_text accept_all sample_Selector
              (mkMessage "updateContextMenu" "8.8.8.8") {["ONYPHE" := false]}
              (mkGeneralSettings false) stale_world)
    as (w' & allEntries & Hrun & Hcalls & _ & _ & Hfirst); [reflexivity|].
  exists w'. split; [exact Hrun|]. rewrite Hcalls.
  rewrite (Hfirst [mkEntry Finder "text" "8.8.8.8";
                   mkEntry ONYPHE.new "ip" "8.8.8.8"]
             (mkEntry Finder "ip" "8.8.8.8") []).
  - vm_compute. do 3 right. left.
  - reflexivity.
  - constructor; [right; reflexivity|].
    constructor; [left; reflexivity|]. constructor.
  - discriminate.
  - discriminate.
Defined.

Lemma absent_analyzer_is_enabled_witness :
  accept_all ContextMenusRemoveAll stale_world = None
  ∧ ∃ w', createContextMenus accept_all sample_Selector
            (mkMessage "updateContextMenu" "8.8.8.8") {["ONYPHE" := false]}
            (mkGeneralSettings false) stale_world = (Ok tt, w')
      ∧ searchItem (mkEntry Finder "ip" "8.8.8.8") ∈ menus w'.
Proof.
  split; [reflexivity|].
  destruct (absent_analyzer_is_enabled accept_all sample_Selector
              (mkMessage "updateContextMenu" "8.8.8.8") {["ONYPHE" := false]}
              (mkGeneralSettings false) stale_world)
    as (w' & Hrun & Hentries); [reflexivity|].
  exists w'. split; [exact Hrun|].
  apply (Hentries (mkEntry Finder "ip" "8.8.8.8")).
  - vm_compute. do 2 right. left.
  - reflexivity.
  - intros ? ?. reflexivity.
Defined.

(** ** Further properties of the ids and of ONYPHE *)

Lemma append_length (a b : string) :
  String.length (a +:+ b) = (String.length a + String.length b)%nat.
Proof.
  induction a as [|c a IH]; [done|]. rewrite append_cons. simpl. by rewrite IH.
Qed.

Lemma append_inj_r (x1 x2 s : string) : x1 +:+ s = x2 +:+ s → x1 = x2.
Proof.
  revert x2. induction x1 as [|c x1 IH]; intros [|c2 x2] Heq.
  - done.
  - apply (f_equal String.length) in Heq.
    rewrite !append_length in Heq. simpl in Heq. lia.
  - apply (f_equal String.length) in Heq.
    rewrite !append_length in Heq. simpl in Heq. lia.
  - rewrite !append_cons in Heq. injection Heq as -> Heq.
    f_equal. by apply IH.
Qed.

(** X16: for a fixed type and analyzer name the id is injective in the
    query, whatever characters the three strings hold: two entries of one
    analyzer and type get the same id only for the same query.  A "Search"
    id is never a "Scan" id. *)
Theorem menu_id_injective_in_query (q1 q2 type name : string) :
  (searchId q1 type name = searchId q2 type name → q1 = q2)
  ∧ (scanId q1 type name = scanId q2 type name → q1 = q2)
  ∧ (∀ q t n, searchId q1 type name ≠ scanId q t n).
Proof.
  split_and!.
  - unfold searchId. intros Heq. apply (inj (String.append "Search ")) in Heq.
    by apply append_inj_r in Heq.
  - unfold scanId. intros Heq. apply (inj (String.append "Scan ")) in Heq.
    by apply append_inj_r in Heq.
  - intros q t n. unfold searchId, scanId. rewrite !append_cons. discriminate.
Qed.

(** X17: [searchByIP] is injective in the query for any endpoint: two
    queries with the same URL are the same query. *)
Theorem onyphe_searchByIP_injective (this : Analyzer) (q1 q2 : string) :
  ONYPHE.searchByIP this q1 = ONYPHE.searchByIP this q2 → q1 = q2.
Proof.
  unfold ONYPHE.searchByIP. intros Heq.
  apply (inj (String.append (endpoint this))) in Heq.
  by apply (inj (String.append "/ip/")) in Heq.
Qed.

(** ** The further statements on concrete inputs *)

Lemma handlers_throw_only_browser_errors_witness :
  (∃ e0 w1,
     search_try notifications_unavailable failing_search onIp empty_world
     = (Throw e0, w1)
     ∧ notifications_unavailable (NotificationsCreate (notificationOf e0)) w1
       = Some {| message := "permission denied" |}
     ∧ log (NotificationsCreate
              (notificationOf {| message := "unsupported type" |}))
           empty_world
       = log (NotificationsCreate (notificationOf e0)) w1)
  ∧ ((storage_unavailable GetApiKeys empty_world
      = Some {| message := "storage is unavailable" |}
      ∧ log GetApiKeys empty_world = log GetApiKeys empty_world)
     ∨ (storage_unavailable GetApiKeys empty_world = None
        ∧ ∃ e0 w1,
            scan_try storage_unavailable sample_scan onIp
              (currentApiKeys empty_world) (log GetApiKeys empty_world)
            = (Throw e0, w1)
            ∧ storage_unavailable (NotificationsCreate (notificationOf e0)) w1
              = Some {| message := "storage is unavailable" |}
            ∧ log GetApiKeys empty_world
              = log (NotificationsCreate (notificationOf e0)) w1)).
Proof.
  split.
  - apply (proj1 (handlers_throw_only_browser_errors
             notifications_unavailable failing_search sample_searchAll
             sample_scan onIp empty_world _ _)).
    reflexivity.
  - apply (proj2 (proj2 (handlers_throw_only_browser_errors
             storage_unavailable failing_search sample_searchAll
             sample_scan onIp empty_world _ _))).
    reflexivity.
Defined.

Lemma search_handlers_return_witness :
  (∃ w', search accept_all failing_search onIp empty_world = (Ok tt, w'))
  ∧ (∃ w', searchAll accept_all three_searchAll onIp empty_world = (Ok tt, w')).
Proof.
  apply search_handlers_return. intros n w1. reflexivity.
Defined.

Lemma scan_passes_on_getApiKeys_failure_witness :
  storage_unavailable GetApiKeys stale_world
  = Some {| message := "storage is unavailable" |}
  ∧ scan storage_unavailable sample_scan onIp stale_world
    = (Throw {| message := "storage is unavailable" |},
       log GetApiKeys stale_world).
Proof.
  split; [reflexivity|].
  apply scan_passes_on_getApiKeys_failure. reflexivity.
Defined.

Lemma searchAll_stops_at_first_refusal_witness :
  tabs (searchAll refuses_b three_searchAll onIp empty_world).2
  = ["https://a.example/8.8.8.8"].
Proof.
  apply (searchAll_stops_at_first_refusal refuses_b three_searchAll onIp
           empty_world ["https://a.example/8.8.8.8"]
           ["https://c.example/8.8.8.8"] "https://b.example/8.8.8.8"
           {| message := "Illegal URL" |}).
  - reflexivity.
  - reflexivity.
  - intros u w' Hin. apply list_elem_of_singleton in Hin. subst u. reflexivity.
  - intros w'. reflexivity.
Defined.

Lemma searchAll_reports_storage_failure_witness :
  sync_unavailable (StorageSyncGet "searcherStates") empty_world
  = Some {| message := "storage is unavailable" |}
  ∧ tabs (searchAll sync_unavailable three_searchAll onIp empty_world).2 = [].
Proof.
  split; [reflexivity|].
  apply (searchAll_reports_storage_failure sync_unavailable three_searchAll
           onIp empty_world {| message := "storage is unavailable" |}).
  reflexivity.
Defined.

Lemma onClicked_single_search_reads_nothing_witness :
  Command.action (sample_Command_new "Search 8.8.8.8 as a ip on ONYPHE")
  = "search"
  ∧ Command.target (sample_Command_new "Search 8.8.8.8 as a ip on ONYPHE")
    ≠ "all"
  ∧ outputs_only stale_world
      (onClicked accept_all sample_Command_new sample_search sample_searchAll
         sample_scan "Search 8.8.8.8 as a ip on ONYPHE" stale_world).2.
Proof.
  split; [reflexivity|]. split; [discriminate|].
  apply onClicked_single_search_reads_nothing; [reflexivity|discriminate].
Defined.

Lemma refused_creations_are_logged_witness :
  ∃ w', createContextMenus menus_refusing_all sample_Selector
          (mkMessage "updateContextMenu" "8.8.8.8") ∅
          (mkGeneralSettings false) stale_world = (Ok tt, w')
    ∧ menus w'
      = [ searchItem (mkEntry Finder "text" "8.8.8.8");
          searchItem (mkEntry ONYPHE.new "ip" "8.8.8.8");
          searchItem (mkEntry Finder "ip" "8.8.8.8");
          scanItem (mkEntry Scanner "ip" "8.8.8.8") ]
    ∧ console w' = ["Cannot create item with duplicate id"].
Proof.
  destruct (refused_creations_are_logged menus_refusing_all sample_Selector
              refuses_all_item (mkMessage "updateContextMenu" "8.8.8.8") ∅
              (mkGeneralSettings false) stale_world)
    as (w' & Hrun & Hmenus & Hconsole);
    [intros item w1; reflexivity|reflexivity|].
  exists w'. split; [exact Hrun|]. rewrite Hmenus, Hconsole.
  vm_compute. split; reflexivity.
Defined.

Lemma all_searchers_disabled_leaves_scanners_witness :
  accept_all ContextMenusRemoveAll stale_world = None
  ∧ ∃ w', createContextMenus accept_all sample_Selector
            (mkMessage "updateContextMenu" "hello") {["Finder" := false]}
            (mkGeneralSettings false) stale_world = (Ok tt, w')
      ∧ calls w' = [ContextMenusRemoveAll].
Proof.
  split; [reflexivity|].
  apply (all_searchers_disabled_leaves_scanners accept_all sample_Selector
           (mkMessage "updateContextMenu" "hello") {["Finder" := false]}
           (mkGeneralSettings false) stale_world).
  - reflexivity.
  - intros entry Hin. apply list_elem_of_singleton in Hin. subst entry.
    reflexivity.
Defined.

Lemma onMessage_ignores_other_requests_witness :
  request (mkMessage "ping" "8.8.8.8") ≠ "updateContextMenu"
  ∧ onMessage accept_all sample_Selector sample_getGeneralSettings
      (mkMessage "ping" "8.8.8.8") stale_world = (Ok tt, stale_world).
Proof.
  split; [discriminate|].
  apply onMessage_ignores_other_requests. discriminate.
Defined.

Lemma onMessage_storage_failure_keeps_menu_witness :
  menus (onMessage sync_unavailable sample_Selector sample_getGeneralSettings
           (mkMessage "updateContextMenu" "8.8.8.8") stale_world).2
  = menus stale_world.
Proof.
  rewrite (onMessage_storage_failure_keeps_menu sync_unavailable
             sample_Selector sample_getGeneralSettings
             (mkMessage "updateContextMenu" "8.8.8.8") stale_world
             {| message := "storage is unavailable" |});
    reflexivity.
Defined.

Lemma onMessage_rebuilds_with_stored_states_witness :
  ∃ w', onMessage accept_all sample_Selector sample_getGeneralSettings
          (mkMessage "updateContextMenu" "8.8.8.8") stale_world = (Ok tt, w')
    ∧ calls w'
      = [ StorageSyncGet "searcherStates"; ContextMenusRemoveAll;
          ContextMenusCreate (searchItem (mkEntry Finder "text" "8.8.8.8"));
          ContextMenusCreate (searchItem (mkEntry Finder "ip" "8.8.8.8"));
          ContextMenusCreate (allItem (mkEntry Finder "ip" "8.8.8.8"));
          ContextMenusCreate (scanItem (mkEntry Scanner "ip" "8.8.8.8")) ].
Proof.
  destruct (onMessage_rebuilds_with_stored_states accept_all sample_Selector
              sample_getGeneralSettings
              (mkMessage "updateContextMenu" "8.8.8.8") stale_world
              (log (StorageSyncGet "searcherStates") stale_world)
              (mkGeneralSettings false))
    as (w' & Hrun & Hcalls); [reflexivity..|].
  exists w'. split; [exact Hrun|]. rewrite Hcalls. vm_compute. reflexivity.
Defined.

Lemma onMessage_fresh_profile_lists_every_searcher_witness :
  ∃ w', onMessage accept_all sample_Selector sample_getGeneralSettings
          (mkMessage "updateContextMenu" "8.8.8.8") empty_world = (Ok tt, w')
    ∧ calls w'
      = [ StorageSyncGet "searcherStates"; ContextMenusRemoveAll;
          ContextMenusCreate (searchItem (mkEntry Finder "text" "8.8.8.8"));
          ContextMenusCreate (searchItem (mkEntry ONYPHE.new "ip" "8.8.8.8"));
          ContextMenusCreate (searchItem (mkEntry Finder "ip" "8.8.8.8"));
          ContextMenusCreate (allItem (mkEntry ONYPHE.new "ip" "8.8.8.8"));
          ContextMenusCreate (scanItem (mkEntry Scanner "ip" "8.8.8.8")) ].
Proof.
  destruct (onMessage_fresh_profile_lists_every_searcher accept_all
              sample_Selector sample_getGeneralSettings
              (mkMessage "updateContextMenu" "8.8.8.8") empty_world
              (log (StorageSyncGet "searcherStates") empty_world)
              (mkGeneralSettings false))
    as (w' & Hrun & Hcalls); [reflexivity..|].
  exists w'. split; [exact Hrun|]. rewrite Hcalls. vm_compute. reflexivity.
Defined.

Lemma menu_id_injective_in_query_witness :
  searchId "8.8.8.8" "ip" "ONYPHE" = searchId "8.8.8.8" "ip" "ONYPHE"
  ∧ "8.8.8.8" = "8.8.8.8".
Proof.
  split; [reflexivity|].
  apply (menu_id_injective_in_query "8.8.8.8" "8.8.8.8" "ip" "ONYPHE").
  reflexivity.
Defined.

Lemma onyphe_searchByIP_injective_witness :
  ONYPHE.searchByIP ONYPHE.new "8.8.8.8" = ONYPHE.searchByIP ONYPHE.new "8.8.8.8"
  ∧ "8.8.8.8" = "8.8.8.8".
Proof.
  split; [reflexivity|].
  apply (onyphe_searchByIP_injective ONYPHE.new). reflexivity.
Defined.
